(** * challenge-azure: the iRail liveboard ingestion pipeline

    A shallow embedding of [function_app.py]: the liveboard client
    ([get_liveboard]), the normaliser ([normalize_liveboard]), the
    de-duplicating insert ([insert_into_sql]) and the two triggers
    ([get_irail_data], [fetch_irail_data_timer]), followed by the properties
    the specification states about them.

    Conventions of the model.
    - A Python value that comes out of [json.loads] is a [json]; Python's
      [None] is [JNull].  JSON numbers are integers (no floats).
    - A Python exception is an [exn] carrying its class and [str(e)];
      [try/except] is a match on [result].
    - The world outside the process (environment, network, SQL server) is a
      record [world]; each function takes the world and returns the new one.
    - Logging and tracing calls do not influence any value and are left out. *)

From Stdlib Require Import ZArith QArith List String Ascii Bool Lia.
Import ListNotations.
Local Open Scope string_scope.
Local Open Scope Z_scope.
Set Warnings "-register-all".

(* ===================================================================== *)
(** ** Python values, exceptions *)
(* ===================================================================== *)

Inductive json : Type :=
| JNull
| JBool (b : bool)
| JNum (n : Z)
| JStr (s : string)
| JArr (items : list json)
| JObj (fields : list (string * json)).

(** A Python [dict] with string keys, in insertion order. *)
Definition dict : Type := list (string * json).

Inductive exn_class : Type :=
| AttributeError
| KeyError
| ValueError
| TypeError
| NotImplementedError
| HTTPError          (* requests: raise_for_status, transport, body decoding *)
| DatabaseError      (* pyodbc.Error and its subclasses *)
| OutOfModel.        (* a library behaviour this development does not model *)

(** [exn_str] is what [str(e)] gives. *)
Record exn : Type := Exn { exn_cls : exn_class; exn_str : string }.

Inductive result (A : Type) : Type :=
| Ok (a : A)
| Raise (e : exn).
Arguments Ok {A} a.
Arguments Raise {A} e.

Definition bind {A B : Type} (m : result A) (k : A -> result B) : result B :=
  match m with
  | Ok a => k a
  | Raise e => Raise e
  end.

Declare Scope py_scope.
Delimit Scope py_scope with py.
Notation "x <- m ;; k" := (bind m (fun x => k))
  (at level 61, m at next level, right associativity) : py_scope.
Notation "m ;;; k" := (bind m (fun _ => k))
  (at level 61, right associativity) : py_scope.
Local Open Scope py_scope.

(** [d.get(key)] on a dict: the first binding of [key]. *)
Fixpoint dict_get (key : string) (d : dict) : option json :=
  match d with
  | [] => None
  | (k, v) :: tl => if String.eqb k key then Some v else dict_get key tl
  end.

(** [d[key] = v]: overwrite in place, or append a new key. *)
Fixpoint dict_set (key : string) (v : json) (d : dict) : dict :=
  match d with
  | [] => [(key, v)]
  | (k, w) :: tl =>
      if String.eqb k key then (k, v) :: tl else (k, w) :: dict_set key v tl
  end.

(** [{**d1, **d2}]. *)
Definition dict_update (d1 d2 : dict) : dict :=
  fold_left (fun acc kv => dict_set (fst kv) (snd kv) acc) d2 d1.

(** [type(v).__name__], for the text of an AttributeError. *)
Definition type_name (v : json) : string :=
  match v with
  | JNull => "NoneType"
  | JBool _ => "bool"
  | JNum _ => "int"
  | JStr _ => "str"
  | JArr _ => "list"
  | JObj _ => "dict"
  end.

Definition no_attribute (v : json) (attr : string) : exn :=
  Exn AttributeError
      ("'" ++ type_name v ++ "' object has no attribute '" ++ attr ++ "'").

(** [v.get(key, default)]: only a dict has [get]. *)
Definition py_get (v : json) (key : string) (default : json) : result json :=
  match v with
  | JObj d =>
      Ok (match dict_get key d with Some x => x | None => default end)
  | _ => Raise (no_attribute v "get")
  end.

(** Python truthiness, as used by [x or y] and [if not x]. *)
Definition truthy (v : json) : bool :=
  match v with
  | JNull => false
  | JBool b => b
  | JNum n => negb (n =? 0)
  | JStr s => negb (String.eqb s "")
  | JArr l => match l with [] => false | _ => true end
  | JObj d => match d with [] => false | _ => true end
  end.

(** [x or y]. *)
Definition py_or (x y : json) : json := if truthy x then x else y.

(** [str.lower()] on the ASCII letters. *)
Definition lower_ascii (c : ascii) : ascii :=
  let n := nat_of_ascii c in
  if (Nat.leb 65 n && Nat.leb n 90)%bool then ascii_of_nat (n + 32) else c.

Fixpoint str_lower (s : string) : string :=
  match s with
  | EmptyString => EmptyString
  | String c tl => String (lower_ascii c) (str_lower tl)
  end.

(** [v.lower()]: only a str has [lower]. *)
Definition py_lower (v : json) : result string :=
  match v with
  | JStr s => Ok (str_lower s)
  | _ => Raise (no_attribute v "lower")
  end.

(** [s.replace(' ', '_')]. *)
Fixpoint str_replace_space (s : string) : string :=
  match s with
  | EmptyString => EmptyString
  | String c tl =>
      String (if Ascii.eqb c " "%char then "_"%char else c)
             (str_replace_space tl)
  end.

(** [str(b)] for a Python bool. *)
Definition str_of_bool (b : bool) : string := if b then "True" else "False".

(** *** [int(s)] for a str

    Surrounding whitespace is dropped, one sign is allowed, and the digits
    may be grouped by single underscores. *)

Definition is_space (c : ascii) : bool :=
  let n := nat_of_ascii c in
  ((Nat.leb 9 n && Nat.leb n 13) || Nat.eqb n 32)%bool.

Definition digit_of (c : ascii) : option Z :=
  let n := nat_of_ascii c in
  if (Nat.leb 48 n && Nat.leb n 57)%bool then Some (Z.of_nat (n - 48)) else None.

Fixpoint lstrip (s : list ascii) : list ascii :=
  match s with
  | c :: tl => if is_space c then lstrip tl else s
  | [] => []
  end.

Definition strip (s : list ascii) : list ascii :=
  rev (lstrip (rev (lstrip s))).

(** [digits acc after_digit s]: the value of the digit string [s], where
    [after_digit] says that the previous character was a digit (so that an
    underscore may follow). *)
Fixpoint digits (acc : Z) (after_digit : bool) (s : list ascii) : option Z :=
  match s with
  | [] => if after_digit then Some acc else None
  | c :: tl =>
      match digit_of c with
      | Some d => digits (10 * acc + d) true tl
      | None =>
          if (Ascii.eqb c "_"%char && after_digit)%bool
          then digits acc false tl
          else None
      end
  end.

Definition int_of_chars (s : list ascii) : option Z :=
  match strip s with
  | c :: tl =>
      if Ascii.eqb c "-"%char then option_map Z.opp (digits 0 false tl)
      else if Ascii.eqb c "+"%char then digits 0 false tl
      else digits 0 false (c :: tl)
  | [] => None
  end.

(** [int(v)] for a value found in a data-frame cell. *)
Definition py_int (v : json) : result Z :=
  match v with
  | JNum n => Ok n
  | JBool b => Ok (if b then 1 else 0)
  | JStr s =>
      match int_of_chars (list_ascii_of_string s) with
      | Some n => Ok n
      | None =>
          Raise (Exn ValueError
                     ("invalid literal for int() with base 10: '" ++ s ++ "'"))
      end
  | _ =>
      Raise (Exn TypeError
                 ("int() argument must be a string, a bytes-like object or a real number, not '"
                    ++ type_name v ++ "'"))
  end.

(* ===================================================================== *)
(** ** datetime *)
(* ===================================================================== *)

(** A naive [datetime], as the number of microseconds between the epoch and
    the wall-clock time it shows.  The (fixed) offset of the local time zone
    is not represented. *)
Record datetime : Type := Datetime { micros : Z }.

(** Years 1 to 9999. *)
Definition MIN_MICROS : Z := -62135596800 * 1000000.
Definition MAX_MICROS : Z := 253402300799 * 1000000 + 999999.

(** Rounding to the nearest integer, ties to even. *)
Definition round_half_even (q : Q) : Z :=
  let n := Qnum q in
  let d := Z.pos (Qden q) in
  let fl := n / d in
  let r := n mod d in
  match 2 * r ?= d with
  | Lt => fl
  | Gt => fl + 1
  | Eq => if Z.even fl then fl else fl + 1
  end.

(** [datetime.fromtimestamp(t)], [t] in seconds: rounded to a microsecond,
    refused outside the years [datetime] can hold. *)
Definition fromtimestamp (t : Q) : result datetime :=
  let us := round_half_even (t * inject_Z 1000000)%Q in
  if ((MIN_MICROS <=? us) && (us <=? MAX_MICROS))%bool
  then Ok (Datetime us)
  else Raise (Exn ValueError "year is out of range").

(* ===================================================================== *)
(** ** pandas: data frames and [json_normalize] *)
(* ===================================================================== *)

(** A cell holds a value or is missing ([NaN]). *)
Inductive cell : Type :=
| NaN
| Val (v : json).

(** A frame: its column labels and, per row, one cell per column. *)
Record DataFrame : Type := Frame {
  columns : list string;
  values : list (list cell)
}.

(** A row as [iterrows] yields it: the cells labelled by the columns. *)
Definition Series : Type := list (string * cell).

Definition is_dict (v : json) : bool :=
  match v with JObj _ => true | _ => false end.

(** [f"{key_string}{separator}{key}"], without the leading separator at
    the top level. *)
Definition new_key (key_string key : string) : string :=
  if String.eqb key_string "" then key else key_string ++ "." ++ key.

(** pandas' [_normalise_json]: nested dicts become dotted keys. *)
Fixpoint normalise_json (data : json) (key_string : string)
    (normalized_dict : dict) : dict :=
  match data with
  | JObj fields =>
      (fix over_items (fs : list (string * json)) (acc : dict) : dict :=
         match fs with
         | [] => acc
         | (key, value) :: tl =>
             over_items tl (normalise_json value (new_key key_string key) acc)
         end) fields normalized_dict
  | _ => dict_set key_string data normalized_dict
  end.

(** pandas' [_normalise_json_ordered]: the top-level scalars first, then the
    flattened nested dicts. *)
Definition normalise_json_ordered (data : dict) : dict :=
  let top_dict := filter (fun kv => negb (is_dict (snd kv))) data in
  let nested_dict :=
    normalise_json (JObj (filter (fun kv => is_dict (snd kv)) data)) "" [] in
  dict_update top_dict nested_dict.

(** pandas' [_simple_json_normalize] on one item of the list: a dict is
    flattened, a scalar gives the empty record.  A list as an item is not a
    documented input of [json_normalize] and is not modelled. *)
Definition simple_json_normalize (item : json) : result dict :=
  match item with
  | JObj d => Ok (normalise_json_ordered d)
  | JArr _ => Raise (Exn OutOfModel "json_normalize: a list inside the list of records")
  | _ => Ok []
  end.

Fixpoint map_result {A B : Type} (f : A -> result B) (l : list A)
    : result (list B) :=
  match l with
  | [] => Ok []
  | a :: tl => b <- f a ;; bs <- map_result f tl ;; Ok (b :: bs)
  end.

Definition mem_string (s : string) (l : list string) : bool :=
  existsb (String.eqb s) l.

(** The union of the records' keys, in order of first appearance. *)
Definition add_keys (cols : list string) (record : dict) : list string :=
  fold_left (fun cs k => if mem_string k cs then cs else (cs ++ [k])%list)
            (map fst record) cols.

Definition union_keys (records : list dict) : list string :=
  fold_left add_keys records [].

Definition cell_of (record : dict) (col : string) : cell :=
  match dict_get col record with
  | Some v => Val v
  | None => NaN
  end.

(** [DataFrame(records)] for a list of dicts. *)
Definition frame_of_records (records : list dict) : DataFrame :=
  let cols := union_keys records in
  Frame cols (map (fun r => map (cell_of r) cols) records).

(** [pd.json_normalize(data)]. *)
Definition json_normalize (data : json) : result DataFrame :=
  match data with
  | JArr [] => Ok (Frame [] [])
  | JArr items =>
      records <- map_result simple_json_normalize items ;;
      Ok (frame_of_records records)
  | JObj d => Ok (frame_of_records [normalise_json_ordered d])
  | _ => Raise (Exn NotImplementedError "")
  end.

(** [df.empty]: some axis has length 0. *)
Definition df_empty (df : DataFrame) : bool :=
  match columns df, values df with
  | [], _ => true
  | _, [] => true
  | _, _ => false
  end.

(** The rows of [df.iterrows()], in order. *)
Definition iterrows (df : DataFrame) : list Series :=
  map (fun row => combine (columns df) row) (values df).

(** [row.get(key, default)]. *)
Fixpoint series_get (row : Series) (key : string) (default : cell) : cell :=
  match row with
  | [] => default
  | (k, c) :: tl => if String.eqb k key then c else series_get tl key default
  end.

(** [pd.isnull(c)] as the condition of an [if].  For a list, [isnull]
    gives an array, which is not modelled. *)
Definition pd_isnull (c : cell) : result bool :=
  match c with
  | NaN => Ok true
  | Val JNull => Ok true
  | Val (JArr _) => Raise (Exn OutOfModel "pd.isnull of a list")
  | Val _ => Ok false
  end.

(* ===================================================================== *)
(** ** The normaliser *)
(* ===================================================================== *)

(** [normalize_liveboard(json_data)] *)
Definition normalize_liveboard (json_data : json) : result DataFrame :=
  departures0 <- py_get json_data "departures" (JObj []) ;;
  departures <- py_get departures0 "departure" (JArr []) ;;
  json_normalize departures.

(* ===================================================================== *)
(** ** The SQL table and the world outside the process *)
(* ===================================================================== *)

(** A value sent to, or stored by, the SQL server. *)
Inductive sqlval : Type :=
| SqlNull
| SqlText (s : string)
| SqlInt (n : Z)
| SqlBit (b : bool)
| SqlDatetime (d : datetime).

(** A row of [LiveboardData (station, vehicle, departure_time, platform)].
    The columns keep the values as they were bound (no conversion and no
    collation is modelled). *)
Record row : Type := Row {
  station : sqlval;
  vehicle : sqlval;
  departure_time : sqlval;
  platform : sqlval
}.

Definition sqlval_eqb (a b : sqlval) : bool :=
  match a, b with
  | SqlNull, SqlNull => true
  | SqlText s, SqlText t => String.eqb s t
  | SqlInt n, SqlInt m => n =? m
  | SqlBit x, SqlBit y => Bool.eqb x y
  | SqlDatetime d, SqlDatetime e => micros d =? micros e
  | _, _ => false
  end.

(** The SQL predicate [a = b] is TRUE.  A comparison with NULL is UNKNOWN,
    which a WHERE clause treats as not true. *)
Definition sql_eq (a b : sqlval) : bool :=
  match a, b with
  | SqlNull, _ => false
  | _, SqlNull => false
  | _, _ => sqlval_eqb a b
  end.

(** A GET request as [requests.get(url, params=...)] sends it. *)
Record http_get : Type := HttpGet {
  url : string;
  query : list (string * json)
}.

Record world : Type := World {
  (** [os.environ] *)
  environ : list (string * string);
  (** the upstream API: what [raise_for_status] and [response.json()] give *)
  irail : http_get -> result json;
  (** the GET requests performed so far *)
  sent : list http_get;
  (** [pyodbc.connect(conn_str)]: [Some m] when it fails, with message [m] *)
  connect_fault : string -> option string;
  (** the [i]-th [cursor.execute] of a call fails, with message [m] *)
  execute_fault : nat -> option string;
  (** [conn.commit()] fails *)
  commit_fault : option string;
  (** the committed content of the table *)
  LiveboardData : list row
}.

Definition set_LiveboardData (w : world) (tbl : list row) : world :=
  World (environ w) (irail w) (sent w) (connect_fault w) (execute_fault w)
        (commit_fault w) tbl.

Definition add_sent (w : world) (r : http_get) : world :=
  World (environ w) (irail w) (sent w ++ [r]) (connect_fault w)
        (execute_fault w) (commit_fault w) (LiveboardData w).

Fixpoint assoc_get (key : string) (l : list (string * string)) : option string :=
  match l with
  | [] => None
  | (k, v) :: tl => if String.eqb k key then Some v else assoc_get key tl
  end.

(** [os.environ[key]] *)
Definition os_environ (w : world) (key : string) : result string :=
  match assoc_get key (environ w) with
  | Some v => Ok v
  | None => Raise (Exn KeyError ("'" ++ key ++ "'"))
  end.

Definition fault (f : option string) : result unit :=
  match f with
  | Some m => Raise (Exn DatabaseError m)
  | None => Ok tt
  end.

(** How pyodbc binds a Python value to a [?]. *)
Definition bind_param (c : cell) : result sqlval :=
  match c with
  | NaN =>
      Raise (Exn DatabaseError
                 "The supplied value is not a valid instance of data type float.")
  | Val JNull => Ok SqlNull
  | Val (JStr s) => Ok (SqlText s)
  | Val (JNum n) => Ok (SqlInt n)
  | Val (JBool b) => Ok (SqlBit b)
  | Val (JArr _) => Raise (Exn DatabaseError "Invalid parameter type.  param-type=list")
  | Val (JObj _) => Raise (Exn DatabaseError "Invalid parameter type.  param-type=dict")
  end.

Definition bind_datetime (dt : option datetime) : sqlval :=
  match dt with
  | Some d => SqlDatetime d
  | None => SqlNull
  end.

(** [SELECT 1 FROM LiveboardData WHERE station = ? AND vehicle = ? AND
    departure_time = ?] returns a row. *)
Definition key_exists (tbl : list row) (s v d : sqlval) : bool :=
  existsb (fun r => sql_eq (station r) s && sql_eq (vehicle r) v
                    && sql_eq (departure_time r) d)%bool tbl.

(** The statement of [insert_into_sql], on the table as the transaction
    sees it: [IF NOT EXISTS (SELECT ...) BEGIN INSERT ... END]. *)
Definition if_not_exists_insert (tbl : list row)
    (s1 v1 d1 : sqlval) (s2 v2 d2 p : sqlval) : list row :=
  if key_exists tbl s1 v1 d1 then tbl else tbl ++ [Row s2 v2 d2 p].

(* ===================================================================== *)
(** ** The de-duplicating insert *)
(* ===================================================================== *)

(** Lines 62-67: the departure time of a row.  The division
    [raw_time / 1000] is the exact quotient (the rounding of Python's float
    division is not modelled). *)
Definition convert_time (raw_time : cell) : result (option datetime) :=
  null <- pd_isnull raw_time ;;
  if null then Ok None
  else
    match raw_time with
    | NaN => Ok None
    | Val v =>
        raw_time <- py_int v ;;
        dt <- (if 10000000000 <? raw_time
               then fromtimestamp (inject_Z raw_time / inject_Z 1000)%Q
               else fromtimestamp (inject_Z raw_time)) ;;
        Ok (Some dt)
    end.

(** Lines 74-87: [cursor.execute(statement, station, vehicle, dt, station,
    vehicle, dt, platform)], the [i]-th statement of the call. *)
Definition cursor_execute (w : world) (i : nat) (tbl : list row)
    (station vehicle : cell) (dt : option datetime) (platform : cell)
    : result (list row) :=
  s <- bind_param station ;;
  v <- bind_param vehicle ;;
  p <- bind_param platform ;;
  fault (execute_fault w i) ;;;
  Ok (if_not_exists_insert tbl s v (bind_datetime dt) s v (bind_datetime dt) p).

(** Lines 60-87: the loop over [df.iterrows()]; [tbl] is the table as the
    open transaction sees it. *)
Fixpoint insert_rows (w : world) (rows : list Series) (i : nat)
    (tbl : list row) : result (list row) :=
  match rows with
  | [] => Ok tbl
  | r :: tl =>
      dt <- convert_time (series_get r "time" (Val JNull)) ;;
      let station := series_get r "station" (Val (JStr "")) in
      let vehicle := series_get r "vehicle" (Val (JStr "")) in
      let platform := series_get r "platform" (Val (JStr "")) in
      tbl' <- cursor_execute w i tbl station vehicle dt platform ;;
      insert_rows w tl (S i) tbl'
  end.

(** Lines 56-89: the body of the [try].  The result is the table that
    [conn.commit()] makes durable; when an exception leaves the [with]
    block nothing of the transaction is kept. *)
Definition transaction (df : DataFrame) (w : world) : result (list row) :=
  conn_str <- os_environ w "SqlConnectionString" ;;
  fault (connect_fault w conn_str) ;;;
  tbl <- insert_rows w (iterrows df) 0 (LiveboardData w) ;;
  fault (commit_fault w) ;;;
  Ok tbl.

Definition INSERT_DONE : string := "Insertion terminée sans doublons.".

(** [insert_into_sql(df)] *)
Definition insert_into_sql (df : DataFrame) (w : world)
    : (bool * string) * world :=
  match transaction df w with
  | Ok tbl => ((true, INSERT_DONE), set_LiveboardData w tbl)
  | Raise e => ((false, exn_str e), w)
  end.

(* ===================================================================== *)
(** ** The liveboard client *)
(* ===================================================================== *)

Definition DEFAULT_STATION : json := JStr "Brussel-Zuid".

Definition liveboard_request (station : json) : http_get :=
  HttpGet "https://api.irail.be/liveboard/"
          [("station", station); ("format", JStr "json")].

(** [get_liveboard(station='Brussel-Zuid')]; [None] is a call without the
    argument. *)
Definition get_liveboard (station : option json) (w : world)
    : result json * world :=
  let station := match station with Some s => s | None => DEFAULT_STATION end in
  let request := liveboard_request station in
  (irail w request, add_sent w request).

(* ===================================================================== *)
(** ** The HTTP trigger *)
(* ===================================================================== *)

Record HttpRequest : Type := Request {
  method : string;
  (** the query string, [req.params] *)
  params : list (string * string);
  (** [req.get_json()]: the decoded body, or the ValueError it raises *)
  get_json : result json
}.

(** What the handler puts in the body.  The rendering of a frame as JSON
    records or as CSV is kept symbolic. *)
Inductive Body : Type :=
| Text (s : string)
| JsonRecords (df : DataFrame)
| Csv (df : DataFrame).

Record HttpResponse : Type := Response {
  body : Body;
  status_code : Z;
  mimetype : option string;
  headers : list (string * string)
}.

(** [req.params.get(key, default)] *)
Definition params_get (req : HttpRequest) (key default : string) : string :=
  match assoc_get key (params req) with
  | Some v => v
  | None => default
  end.

(** Lines 105-107: the parameters of the query string. *)
Definition query_station (req : HttpRequest) : json :=
  match assoc_get "station" (params req) with
  | Some v => JStr v
  | None => JNull
  end.

Definition query_format (req : HttpRequest) : string :=
  str_lower (params_get req "format" "csv").

Definition query_sql (req : HttpRequest) : bool :=
  String.eqb (str_lower (params_get req "sql" "true")) "true".

(** Lines 116-119: the [except] of the inner [try]. *)
Definition body_except (station : json) : json :=
  if negb (truthy station) then DEFAULT_STATION else station.

(** Lines 110-119: the parameters of a POST body.  The three assignments run
    in order; the first one that raises leaves the later variables as they
    were and goes to the [except]. *)
Definition read_body (req : HttpRequest) (station : json)
    (response_format : string) (write_to_sql : bool)
    : json * string * bool :=
  match get_json req with
  | Raise _ => (body_except station, response_format, write_to_sql)
  | Ok req_body =>
      match py_get req_body "station" (py_or station DEFAULT_STATION) with
      | Raise _ => (body_except station, response_format, write_to_sql)
      | Ok station =>
          match (f <- py_get req_body "format" (JStr response_format) ;;
                 py_lower f) with
          | Raise _ => (body_except station, response_format, write_to_sql)
          | Ok response_format =>
              match (s <- py_get req_body "sql"
                                 (JStr (str_of_bool write_to_sql)) ;;
                     py_lower s) with
              | Raise _ => (body_except station, response_format, write_to_sql)
              | Ok s => (station, response_format, String.eqb s "true")
              end
          end
      end
  end.

(** Lines 105-121: station, format and the write flag of a request. *)
Definition request_parameters (req : HttpRequest) : json * string * bool :=
  let station := query_station req in
  let response_format := query_format req in
  let write_to_sql := query_sql req in
  let '(station, response_format, write_to_sql) :=
    if String.eqb (method req) "POST"
    then read_body req station response_format write_to_sql
    else (station, response_format, write_to_sql) in
  (py_or station DEFAULT_STATION, response_format, write_to_sql).

(** Lines 136-155: the answer that carries the frame. *)
Definition render (df : DataFrame) (station : json) (response_format : string)
    : result HttpResponse :=
  if String.eqb response_format "json"
  then Ok (Response (JsonRecords df) 200 (Some "application/json") [])
  else
    match station with
    | JStr s =>
        Ok (Response (Csv df) 200 (Some "text/csv")
              [("Content-Disposition",
                "attachment; filename=liveboard_" ++ str_replace_space s ++ ".csv")])
    | _ => Raise (no_attribute station "replace")
    end.

(** Lines 124-155: from the fetch to the answer, inside the outer [try]. *)
Definition respond (station : json) (response_format : string)
    (write_to_sql : bool) (w : world) : result HttpResponse * world :=
  let '(fetched, w) := get_liveboard (Some station) w in
  match (json_data <- fetched ;; normalize_liveboard json_data) with
  | Raise e => (Raise e, w)
  | Ok df =>
      if df_empty df
      then (Ok (Response (Text "Aucun départ trouvé.") 404 None []), w)
      else
        let '((success, msg), w) :=
          if write_to_sql then insert_into_sql df w else ((true, ""), w) in
        if negb success
        then (Ok (Response (Text ("Erreur SQL : " ++ msg)) 500 None []), w)
        else (render df station response_format, w)
  end.

(** [get_irail_data(req)] *)
Definition get_irail_data (req : HttpRequest) (w : world)
    : HttpResponse * world :=
  let '(station, response_format, write_to_sql) := request_parameters req in
  match respond station response_format write_to_sql w with
  | (Ok response, w) => (response, w)
  | (Raise e, w) =>
      (Response (Text ("Server error : " ++ exn_str e)) 500 None [], w)
  end.

(* ===================================================================== *)
(** ** The timer trigger *)
(* ===================================================================== *)

(** [fetch_irail_data_timer(timer)]: no value, only the effect. *)
Definition fetch_irail_data_timer (w : world) : world :=
  let '(fetched, w) := get_liveboard (Some (JStr "Brussel-Zuid")) w in
  match (json_data <- fetched ;; normalize_liveboard json_data) with
  | Raise _ => w
  | Ok df => if df_empty df then w else snd (insert_into_sql df w)
  end.

(* ===================================================================== *)
(** ** Vocabulary of the specification *)
(* ===================================================================== *)

(** The identity key of a stored row is [(station, vehicle,
    departure_time)]; two rows have the same key when the three values are
    the same, NULL included. *)
Definition has_key (s v d : sqlval) (r : row) : bool :=
  (sqlval_eqb (station r) s && sqlval_eqb (vehicle r) v
   && sqlval_eqb (departure_time r) d)%bool.

(** The number of rows of the table that have the key. *)
Definition rows_with_key (tbl : list row) (s v d : sqlval) : nat :=
  List.length (filter (has_key s v d) tbl).

(** The key under which [insert_into_sql] looks up and stores a row of the
    frame. *)
Definition record_key (r : Series) : result (sqlval * sqlval * sqlval) :=
  dt <- convert_time (series_get r "time" (Val JNull)) ;;
  s <- bind_param (series_get r "station" (Val (JStr ""))) ;;
  v <- bind_param (series_get r "vehicle" (Val (JStr ""))) ;;
  Ok (s, v, bind_datetime dt).

(** The list found at [departures.departure], if there is one. *)
Definition departure_list (payload : json) : option (list json) :=
  match payload with
  | JObj top =>
      match dict_get "departures" top with
      | Some (JObj departures) =>
          match dict_get "departure" departures with
          | Some (JArr l) => Some l
          | _ => None
          end
      | _ => None
      end
  | _ => None
  end.


(** The row that [insert_into_sql] sends for a row of the frame: the key
    and the platform, bound in the order of the statement's parameters. *)
Definition record_row (r : Series) : result row :=
  dt <- convert_time (series_get r "time" (Val JNull)) ;;
  s <- bind_param (series_get r "station" (Val (JStr ""))) ;;
  v <- bind_param (series_get r "vehicle" (Val (JStr ""))) ;;
  p <- bind_param (series_get r "platform" (Val (JStr ""))) ;;
  Ok (Row s v (bind_datetime dt) p).

(** No component of the key is NULL. *)
Definition key_not_null (k : sqlval * sqlval * sqlval) : Prop :=
  fst (fst k) <> SqlNull /\ snd (fst k) <> SqlNull /\ snd k <> SqlNull.

(** A frame is rectangular: its labels are distinct and every row has one
    cell per label. *)
Definition rectangular (df : DataFrame) : Prop :=
  NoDup (columns df)
  /\ Forall (fun cells => List.length cells = List.length (columns df))
            (values df).

(* ===================================================================== *)
(** ** Sample data *)
(* ===================================================================== *)

(** The departure of the end-to-end scenario. *)
Definition ic1234 : dict :=
  [("station", JStr "Brussel-Zuid"); ("vehicle", JStr "BE.NMBS.IC1234");
   ("time", JStr "1698937200"); ("platform", JStr "5")].

(** The same train, announced on another platform. *)
Definition ic1234_platform7 : dict :=
  [("station", JStr "Brussel-Zuid"); ("vehicle", JStr "BE.NMBS.IC1234");
   ("time", JStr "1698937200"); ("platform", JStr "7")].

(** A departure whose [time] is that is not a number. *)
Definition ic_bad_time : dict :=
  [("station", JStr "Brussel-Zuid"); ("vehicle", JStr "BE.NMBS.IC9999");
   ("time", JStr "soon"); ("platform", JStr "1")].

(** A departure without [time]. *)
Definition ic_untimed : dict :=
  [("station", JStr "Brussel-Zuid"); ("vehicle", JStr "BE.NMBS.IC1234");
   ("platform", JStr "5")].

Definition liveboard_of (departure : list dict) : json :=
  JObj [("version", JStr "1.3");
        ("departures", JObj [("number", JNum (Z.of_nat (List.length departure)));
                             ("departure", JArr (map JObj departure))])].

(** A world in which everything works: the upstream answers every request
    with [payload], the connection string is set and the table holds
    [tbl]. *)
Definition quiet_world (payload : json) (tbl : list row) : world :=
  World [("SqlConnectionString", "Driver={ODBC Driver 18 for SQL Server};")]
        (fun _ => Ok payload) [] (fun _ => None) (fun _ => None) None tbl.

(** The same world, with a SQL server that refuses every connection. *)
Definition unreachable_world (payload : json) (tbl : list row) : world :=
  World [("SqlConnectionString", "Driver={ODBC Driver 18 for SQL Server};")]
        (fun _ => Ok payload) []
        (fun _ => Some "Login timeout expired") (fun _ => None) None tbl.

(** The same world, with a SQL server that fails the second statement of
    every call. *)
Definition deadlocked_world (payload : json) (tbl : list row) : world :=
  World [("SqlConnectionString", "Driver={ODBC Driver 18 for SQL Server};")]
        (fun _ => Ok payload) [] (fun _ => None)
        (fun i => if Nat.eqb i 1 then Some "Transaction was deadlocked" else None)
        None tbl.

(** The same world, with a SQL server that fails every commit. *)
Definition uncommitted_world (payload : json) (tbl : list row) : world :=
  World [("SqlConnectionString", "Driver={ODBC Driver 18 for SQL Server};")]
        (fun _ => Ok payload) [] (fun _ => None) (fun _ => None)
        (Some "Communication link failure") tbl.

(** Another train at the same time and station. *)
Definition ic5678 : dict :=
  [("station", JStr "Brussel-Zuid"); ("vehicle", JStr "BE.NMBS.IC5678");
   ("time", JStr "1698937200"); ("platform", JStr "12")].

(** A world whose upstream is down. *)
Definition offline_world (tbl : list row) : world :=
  World [("SqlConnectionString", "Driver={ODBC Driver 18 for SQL Server};")]
        (fun _ => Raise (Exn HTTPError "503 Server Error: Service Unavailable"))
        [] (fun _ => None) (fun _ => None) None tbl.

(** A world without the connection string in the environment. *)
Definition unconfigured_world (payload : json) (tbl : list row) : world :=
  World [] (fun _ => Ok payload) [] (fun _ => None) (fun _ => None) None tbl.

Definition ic1234_row : row :=
  Row (SqlText "Brussel-Zuid") (SqlText "BE.NMBS.IC1234")
      (SqlDatetime (Datetime 1698937200000000)) (SqlText "5").

Definition untimed_row : row :=
  Row (SqlText "Brussel-Zuid") (SqlText "BE.NMBS.IC1234") SqlNull (SqlText "5").

(* ===================================================================== *)
(** ** Properties: exceptions *)
(* ===================================================================== *)

Section Exceptions.

(** A sequence of two steps returns only if both do. *)
Lemma bind_Ok {A B : Type} (m : result A) (k : A -> result B) (b : B) :
  bind m k = Ok b -> exists a, m = Ok a /\ k a = Ok b.
Proof. destruct m as [a|e]; cbn; intros H; [eauto | discriminate H]. Qed.

End Exceptions.

(* ===================================================================== *)
(** ** Properties: the departure time of a row *)
(* ===================================================================== *)

Section DepartureTime.

(** A whole number of seconds is shown exactly. *)
Lemma round_half_even_seconds (e : Z) :
  round_half_even (inject_Z e * inject_Z 1000000)%Q = e * 1000000.
Proof.
  unfold round_half_even; cbn [Qnum Qden Qmult inject_Z].
  change (Z.pos (1 * 1)) with 1.
  rewrite Z.div_1_r, Z.mod_1_r. reflexivity.
Qed.

(** A whole number of milliseconds is shown exactly. *)
Lemma round_half_even_millis (e : Z) :
  round_half_even (inject_Z e / inject_Z 1000 * inject_Z 1000000)%Q
  = e * 1000.
Proof.
  unfold round_half_even, Qdiv; cbn [Qnum Qden Qmult Qinv inject_Z].
  change (Z.pos (1 * 1000 * 1)) with 1000.
  replace (e * 1 * 1000000) with (e * 1000 * 1000) by lia.
  rewrite Z.div_mul, Z.mod_mul by lia. reflexivity.
Qed.

Lemma fromtimestamp_seconds (e : Z) :
  MIN_MICROS <= e * 1000000 <= MAX_MICROS ->
  fromtimestamp (inject_Z e) = Ok (Datetime (e * 1000000)).
Proof.
  intros [Hlo Hhi]. unfold fromtimestamp.
  rewrite round_half_even_seconds.
  apply Z.leb_le in Hlo, Hhi. rewrite Hlo, Hhi. reflexivity.
Qed.

Lemma fromtimestamp_millis (e : Z) :
  MIN_MICROS <= e * 1000 <= MAX_MICROS ->
  fromtimestamp (inject_Z e / inject_Z 1000)%Q = Ok (Datetime (e * 1000)).
Proof.
  intros [Hlo Hhi]. unfold fromtimestamp.
  rewrite round_half_even_millis.
  apply Z.leb_le in Hlo, Hhi. rewrite Hlo, Hhi. reflexivity.
Qed.


(** A value that [int] accepts is not null. *)
Lemma py_int_not_null (v : json) (e : Z) :
  py_int v = Ok e -> pd_isnull (Val v) = Ok false.
Proof. destruct v; cbn; intros H; try discriminate H; reflexivity. Qed.




End DepartureTime.

(* ===================================================================== *)
(** ** Properties: the de-duplicating insert *)
(* ===================================================================== *)

Section Insert.

Lemma key_exists_app (tbl1 tbl2 : list row) (s v d : sqlval) :
  key_exists (tbl1 ++ tbl2) s v d
  = (key_exists tbl1 s v d || key_exists tbl2 s v d)%bool.
Proof. unfold key_exists. apply existsb_app. Qed.

Lemma key_exists_prefix (tbl1 tbl2 : list row) (s v d : sqlval) :
  key_exists (tbl1 ++ tbl2) s v d = false -> key_exists tbl1 s v d = false.
Proof.
  rewrite key_exists_app. intros H.
  apply orb_false_iff in H. exact (proj1 H).
Qed.

(** One statement keeps the table, or appends one row whose key the table
    did not have. *)
Lemma cursor_execute_extends (w : world) (i : nat) (tbl tbl' : list row)
    (s v : cell) (dt : option datetime) (p : cell) :
  cursor_execute w i tbl s v dt p = Ok tbl' ->
  tbl' = tbl
  \/ exists r, tbl' = (tbl ++ [r])%list
       /\ key_exists tbl (station r) (vehicle r) (departure_time r) = false.
Proof.
  unfold cursor_execute. intros H.
  apply bind_Ok in H as (s' & _ & H).
  apply bind_Ok in H as (v' & _ & H).
  apply bind_Ok in H as (p' & _ & H).
  apply bind_Ok in H as (_ & _ & H).
  injection H as <-. unfold if_not_exists_insert.
  destruct (key_exists tbl s' v' (bind_datetime dt)) eqn:E.
  - now left.
  - right. eexists. split; [reflexivity | exact E].
Qed.

(** The loop only appends, and only rows whose key the table it started
    from did not have. *)
Lemma insert_rows_extends (w : world) (rows : list Series) :
  forall (i : nat) (tbl tbl' : list row),
    insert_rows w rows i tbl = Ok tbl' ->
    exists added,
      tbl' = (tbl ++ added)%list
      /\ Forall (fun r => key_exists tbl (station r) (vehicle r)
                                     (departure_time r) = false) added.
Proof.
  induction rows as [|r tl IH]; intros i tbl tbl' H; cbn [insert_rows] in H.
  - injection H as <-. exists []. split; [now rewrite app_nil_r | constructor].
  - apply bind_Ok in H as (dt & _ & H).
    apply bind_Ok in H as (tbl1 & Hstep & H).
    apply IH in H as (added & -> & Hnew).
    apply cursor_execute_extends in Hstep as [-> | (r1 & -> & Hr1)].
    + exists added. split; [reflexivity | exact Hnew].
    + exists (r1 :: added). split; [now rewrite <- app_assoc|].
      constructor; [exact Hr1|].
      eapply Forall_impl; [|exact Hnew].
      intros a Ha. eapply key_exists_prefix. exact Ha.
Qed.

Lemma insert_rows_app (w : world) (rows1 rows2 : list Series) :
  forall (i : nat) (tbl : list row),
    insert_rows w (rows1 ++ rows2) i tbl
    = (tbl1 <- insert_rows w rows1 i tbl ;;
       insert_rows w rows2 (i + List.length rows1) tbl1).
Proof.
  induction rows1 as [|r tl IH]; intros i tbl; cbn [insert_rows app bind].
  - now rewrite Nat.add_0_r.
  - destruct (convert_time _) as [dt|e]; cbn [bind]; [|reflexivity].
    destruct (cursor_execute _ _ _ _ _ _ _) as [tbl1|e]; cbn [bind];
      [|reflexivity].
    rewrite IH. cbn [List.length]. now rewrite Nat.add_succ_r.
Qed.

(** C3.  The batch runs in one transaction that is committed once, after
    the loop.  When the call fails, the world (and with it the committed
    table) is as it was before the call; in particular when the rows
    before some row went through, inserted or not, and that row fails. *)
Theorem failed_insert_commits_nothing (df : DataFrame) (w : world) :
  (fst (fst (insert_into_sql df w)) = false ->
   snd (insert_into_sql df w) = w)
  /\ (forall conn before r after tbl e,
         os_environ w "SqlConnectionString" = Ok conn ->
         connect_fault w conn = None ->
         iterrows df = (before ++ r :: after)%list ->
         insert_rows w before 0 (LiveboardData w) = Ok tbl ->
         insert_rows w [r] (List.length before) tbl = Raise e ->
         insert_into_sql df w = ((false, exn_str e), w)).
Proof.
  unfold insert_into_sql, transaction. split.
  - destruct (bind _ _) as [tbl|e]; cbn; intros H;
      [discriminate H | reflexivity].
  - intros conn before r after tbl e -> Hc -> Hbefore Hr.
    cbn [bind]. rewrite Hc. cbn [bind fault].
    change (before ++ r :: after)%list with (before ++ [r] ++ after)%list.
    rewrite insert_rows_app, Hbefore. cbn [bind].
    rewrite insert_rows_app, Nat.add_0_l, Hr. reflexivity.
Qed.

(** The first row of the batch is inserted in the transaction, the second
    one fails: nothing is kept. *)
Lemma failed_insert_commits_nothing_witness :
  let df := frame_of_records [ic1234; ic_bad_time] in
  let w := quiet_world JNull [] in
  snd (insert_into_sql df w) = w
  /\ insert_rows w (firstn 1 (iterrows df)) 0 [] = Ok [ic1234_row]
  /\ insert_into_sql df w
     = ((false, "invalid literal for int() with base 10: 'soon'"), w).
Proof.
  intros df w. refine (conj _ (conj eq_refl _)).
  - apply (proj1 (failed_insert_commits_nothing df w)). reflexivity.
  - apply (proj2 (failed_insert_commits_nothing df w)
             "Driver={ODBC Driver 18 for SQL Server};"
             (firstn 1 (iterrows df)) (nth 1 (iterrows df) []) []
             [ic1234_row]
             (Exn ValueError "invalid literal for int() with base 10: 'soon'"));
      reflexivity.
Defined.


(** The case the specification singles out: the stored platform stays. *)
Example later_platform_is_ignored :
  let w := quiet_world JNull [ic1234_row] in
  insert_into_sql (frame_of_records [ic1234_platform7]) w
  = ((true, INSERT_DONE), w).
Proof. reflexivity. Qed.

(** C4, as the code has it.  A successful call returns the flag [True]
    with one fixed message, whatever the number of rows processed or
    inserted.  A failed call returns [False] with the message of the
    exception; for a failure of the storage (the connection, a statement,
    the commit) that is the message of the storage. *)
Theorem insert_into_sql_result (df : DataFrame) (w : world) :
  (fst (fst (insert_into_sql df w)) = true ->
   snd (fst (insert_into_sql df w)) = INSERT_DONE)
  /\ (forall conn m,
         os_environ w "SqlConnectionString" = Ok conn ->
         connect_fault w conn = Some m ->
         fst (insert_into_sql df w) = (false, m))
  /\ (forall conn before r after tbl dt s v p m,
         os_environ w "SqlConnectionString" = Ok conn ->
         connect_fault w conn = None ->
         iterrows df = (before ++ r :: after)%list ->
         insert_rows w before 0 (LiveboardData w) = Ok tbl ->
         convert_time (series_get r "time" (Val JNull)) = Ok dt ->
         bind_param (series_get r "station" (Val (JStr ""))) = Ok s ->
         bind_param (series_get r "vehicle" (Val (JStr ""))) = Ok v ->
         bind_param (series_get r "platform" (Val (JStr ""))) = Ok p ->
         execute_fault w (List.length before) = Some m ->
         fst (insert_into_sql df w) = (false, m))
  /\ (forall conn tbl m,
         os_environ w "SqlConnectionString" = Ok conn ->
         connect_fault w conn = None ->
         insert_rows w (iterrows df) 0 (LiveboardData w) = Ok tbl ->
         commit_fault w = Some m ->
         fst (insert_into_sql df w) = (false, m)).
Proof.
  unfold insert_into_sql, transaction.
  refine (conj _ (conj _ (conj _ _))).
  - destruct (bind _ _); cbn; intros H; [reflexivity | discriminate H].
  - intros conn m -> Hc. cbn [bind]. rewrite Hc. reflexivity.
  - intros conn before r after tbl dt s v p m -> Hc -> Hbefore Hdt Hs Hv Hp Hm.
    cbn [bind]. rewrite Hc. cbn [bind fault].
    rewrite insert_rows_app, Hbefore. cbn [bind insert_rows].
    rewrite Hdt. cbn [bind]. unfold cursor_execute.
    rewrite Hs, Hv, Hp. cbn [bind]. rewrite Nat.add_0_l, Hm. reflexivity.
  - intros conn tbl m -> Hc -> Hm. cbn [bind]. rewrite Hc, Hm. reflexivity.
Qed.

Lemma insert_into_sql_result_witness :
  let df := frame_of_records [ic1234; ic1234_platform7] in
  snd (fst (insert_into_sql df (quiet_world JNull []))) = INSERT_DONE
  /\ fst (insert_into_sql df (unreachable_world JNull []))
     = (false, "Login timeout expired")
  /\ fst (insert_into_sql df (deadlocked_world JNull []))
     = (false, "Transaction was deadlocked")
  /\ fst (insert_into_sql df (uncommitted_world JNull []))
     = (false, "Communication link failure").
Proof.
  intros df. refine (conj _ (conj _ (conj _ _))).
  - apply (proj1 (insert_into_sql_result df _)). reflexivity.
  - apply (proj1 (proj2 (insert_into_sql_result df _))
             "Driver={ODBC Driver 18 for SQL Server};"); reflexivity.
  - apply (proj1 (proj2 (proj2 (insert_into_sql_result df _)))
             "Driver={ODBC Driver 18 for SQL Server};"
             (firstn 1 (iterrows df)) (nth 1 (iterrows df) []) []
             [ic1234_row] (Some (Datetime 1698937200000000))
             (SqlText "Brussel-Zuid") (SqlText "BE.NMBS.IC1234")
             (SqlText "7")); reflexivity.
  - apply (proj2 (proj2 (proj2 (insert_into_sql_result df _)))
             "Driver={ODBC Driver 18 for SQL Server};" [ic1234_row]);
      reflexivity.
Defined.

(** C4, as the specification has it, fails: no count can be read off the
    value returned, since a batch of one row and a batch of two rows
    return the same value. *)
Lemma insert_into_sql_returns_no_count :
  ~ (exists count_of : bool * string -> nat,
        forall df w,
          fst (fst (insert_into_sql df w)) = true ->
          count_of (fst (insert_into_sql df w)) = List.length (values df)).
Proof.
  intros [count_of H].
  pose proof (H (frame_of_records [ic1234]) (quiet_world JNull []) eq_refl)
    as H1.
  pose proof (H (frame_of_records [ic1234; ic1234_platform7])
                (quiet_world JNull []) eq_refl) as H2.
  change (count_of (true, INSERT_DONE) = 1%nat) in H1.
  change (count_of (true, INSERT_DONE) = 2%nat) in H2.
  congruence.
Qed.

End Insert.

(* ===================================================================== *)
(** ** Properties: one row per key *)
(* ===================================================================== *)

Section OneRowPerKey.

Lemma sqlval_eqb_eq (a b : sqlval) : sqlval_eqb a b = true <-> a = b.
Proof.
  destruct a as [|s|n|x|[d]], b as [|t|m|y|[e]]; cbn;
    try (split; [discriminate | discriminate]);
    try (split; reflexivity).
  - rewrite String.eqb_eq. split; congruence.
  - rewrite Z.eqb_eq. split; congruence.
  - rewrite Bool.eqb_true_iff. split; congruence.
  - rewrite Z.eqb_eq. split; congruence.
Qed.

Lemma sql_eq_not_null (a b : sqlval) :
  b <> SqlNull -> sql_eq a b = sqlval_eqb a b.
Proof. destruct a, b; try reflexivity; intros H; now elim H. Qed.

Lemma has_key_eq (s v d : sqlval) (r : row) :
  has_key s v d r = true
  <-> (station r, vehicle r, departure_time r) = (s, v, d).
Proof.
  unfold has_key. rewrite !andb_true_iff, !sqlval_eqb_eq.
  split; [intros [[-> ->] ->]; reflexivity | intros H; now inversion H].
Qed.

Lemma rows_with_key_app (tbl1 tbl2 : list row) (s v d : sqlval) :
  rows_with_key (tbl1 ++ tbl2) s v d
  = (rows_with_key tbl1 s v d + rows_with_key tbl2 s v d)%nat.
Proof. unfold rows_with_key. now rewrite filter_app, length_app. Qed.

Lemma rows_with_key_snoc (tbl : list row) (r : row) (s v d : sqlval) :
  rows_with_key (tbl ++ [r]) s v d
  = (rows_with_key tbl s v d + if has_key s v d r then 1 else 0)%nat.
Proof.
  rewrite rows_with_key_app. unfold rows_with_key at 2. cbn [filter].
  destruct (has_key s v d r); reflexivity.
Qed.

Section NonNullKey.

Variables s v d : sqlval.
Hypothesis s_not_null : s <> SqlNull.
Hypothesis v_not_null : v <> SqlNull.
Hypothesis d_not_null : d <> SqlNull.

(** For a key without NULL, the existence check of the statement finds a
    row exactly when the table has a row with that key. *)
Lemma key_exists_rows_with_key (tbl : list row) :
  key_exists tbl s v d = negb (Nat.eqb (rows_with_key tbl s v d) 0).
Proof.
  unfold key_exists, rows_with_key.
  induction tbl as [|r tl IH]; [reflexivity|].
  cbn [existsb filter]. rewrite IH, !sql_eq_not_null by assumption.
  fold (has_key s v d r). destruct (has_key s v d r); reflexivity.
Qed.

(** One statement: the number of rows with the key stays, or goes from 0
    to 1; and it is at least 1 after a record with that key. *)
Lemma cursor_execute_rows_with_key (w : world) (i : nat)
    (tbl tbl' : list row) (sc vc : cell) (dt : option datetime)
    (pc : cell) :
  cursor_execute w i tbl sc vc dt pc = Ok tbl' ->
  (rows_with_key tbl' s v d = rows_with_key tbl s v d
   \/ (rows_with_key tbl s v d = 0 /\ rows_with_key tbl' s v d = 1))%nat
  /\ (bind_param sc = Ok s -> bind_param vc = Ok v ->
      bind_datetime dt = d ->
      (1 <= rows_with_key tbl' s v d)%nat).
Proof.
  unfold cursor_execute. intros H.
  apply bind_Ok in H as (s' & Hs & H).
  apply bind_Ok in H as (v' & Hv & H).
  apply bind_Ok in H as (p' & _ & H).
  apply bind_Ok in H as (_ & _ & H).
  injection H as <-. unfold if_not_exists_insert.
  set (r := Row s' v' (bind_datetime dt) p').
  destruct (has_key s v d r) eqn:K.
  - (* the record has the key *)
    pose proof (proj1 (has_key_eq s v d r) K) as E. cbn in E.
    injection E as -> -> Hd. rewrite Hd, key_exists_rows_with_key.
    destruct (rows_with_key tbl s v d) as [|n] eqn:C; cbn [Nat.eqb negb].
    + rewrite rows_with_key_snoc, C, K.
      split; [right; split; reflexivity | intros; lia].
    + rewrite C. split; [now left | intros; lia].
  - (* the record has another key *)
    split.
    + left. destruct (key_exists _ _ _ _); [reflexivity|].
      rewrite rows_with_key_snoc, K. lia.
    + intros Hs' Hv' Hd. exfalso.
      rewrite Hs in Hs'. rewrite Hv in Hv'.
      injection Hs' as ->. injection Hv' as ->.
      assert (T : has_key s v d r = true)
        by (apply has_key_eq; cbn; now rewrite Hd).
      rewrite T in K. discriminate K.
Qed.

(** The loop keeps "at most one row with the key", never removes such a
    row, and leaves one behind when a record of the batch has the key. *)
Lemma insert_rows_rows_with_key (w : world) (rows : list Series) :
  forall (i : nat) (tbl tbl' : list row),
    insert_rows w rows i tbl = Ok tbl' ->
    (rows_with_key tbl s v d <= 1)%nat ->
    (rows_with_key tbl s v d <= rows_with_key tbl' s v d <= 1)%nat
    /\ ((exists r, In r rows /\ record_key r = Ok (s, v, d)) ->
        rows_with_key tbl' s v d = 1%nat).
Proof.
  induction rows as [|r tl IH]; intros i tbl tbl' H Hle;
    cbn [insert_rows] in H.
  - injection H as <-. split; [lia|]. intros (r & [] & _).
  - apply bind_Ok in H as (dt & Hdt & H).
    apply bind_Ok in H as (tbl1 & Hstep & H).
    pose proof (cursor_execute_rows_with_key _ _ _ _ _ _ _ _ Hstep)
      as (Hcount & Hkey).
    assert (Hle1 : (rows_with_key tbl1 s v d <= 1)%nat) by lia.
    destruct (IH _ _ _ H Hle1) as (Hmono & Hfound).
    split; [lia|].
    intros (r0 & [<- | Hin] & Hr0).
    + unfold record_key in Hr0. rewrite Hdt in Hr0. cbn [bind] in Hr0.
      apply bind_Ok in Hr0 as (s' & Hs & Hr0).
      apply bind_Ok in Hr0 as (v' & Hv & Hr0).
      injection Hr0 as -> -> Hd.
      specialize (Hkey Hs Hv Hd). lia.
    + apply Hfound. exists r0. split; assumption.
Qed.

(** X20.  What the code does achieve: for a key without NULL, two calls in
    sequence whose batches both hold a record with the key leave exactly
    one row with that key, provided the table did not hold several
    before. *)
Theorem sequential_inserts_one_row (df1 df2 : DataFrame) (w : world) :
  (rows_with_key (LiveboardData w) s v d <= 1)%nat ->
  fst (fst (insert_into_sql df1 w)) = true ->
  fst (fst (insert_into_sql df2 (snd (insert_into_sql df1 w)))) = true ->
  (exists r, In r (iterrows df1) /\ record_key r = Ok (s, v, d)) ->
  (exists r, In r (iterrows df2) /\ record_key r = Ok (s, v, d)) ->
  rows_with_key
    (LiveboardData (snd (insert_into_sql df2 (snd (insert_into_sql df1 w)))))
    s v d = 1%nat.
Proof.
  intros Hle H1 H2 Hin1 Hin2.
  assert (Hcall : forall df w0,
             fst (fst (insert_into_sql df w0)) = true ->
             exists tbl,
               insert_rows w0 (iterrows df) 0 (LiveboardData w0) = Ok tbl
               /\ LiveboardData (snd (insert_into_sql df w0)) = tbl).
  { intros df w0. unfold insert_into_sql, transaction.
    destruct (os_environ w0 _) as [conn|e]; cbn [bind];
      [|intros H; discriminate H].
    destruct (fault (connect_fault w0 conn)) as [[]|e]; cbn [bind];
      [|intros H; discriminate H].
    destruct (insert_rows w0 _ _ _) as [tbl|e]; cbn [bind];
      [|intros H; discriminate H].
    destruct (fault (commit_fault w0)) as [[]|e]; cbn [bind];
      [|intros H; discriminate H].
    intros _. exists tbl. split; reflexivity. }
  destruct (Hcall _ _ H1) as (tbl1 & Hrows1 & E1).
  destruct (Hcall _ _ H2) as (tbl2 & Hrows2 & E2).
  rewrite E2. rewrite E1 in Hrows2.
  destruct (insert_rows_rows_with_key _ _ _ _ _ Hrows1 Hle) as (Hm1 & _).
  assert (Hle1 : (rows_with_key tbl1 s v d <= 1)%nat) by lia.
  destruct (insert_rows_rows_with_key _ _ _ _ _ Hrows2 Hle1) as (_ & Hf).
  apply Hf. exact Hin2.
Qed.

End NonNullKey.

Lemma sequential_inserts_one_row_witness :
  rows_with_key
    (LiveboardData
       (snd (insert_into_sql (frame_of_records [ic1234_platform7])
               (snd (insert_into_sql (frame_of_records [ic1234])
                                     (quiet_world JNull []))))))
    (SqlText "Brussel-Zuid") (SqlText "BE.NMBS.IC1234")
    (SqlDatetime (Datetime 1698937200000000)) = 1%nat.
Proof.
  apply sequential_inserts_one_row; try discriminate.
  - cbn. lia.
  - reflexivity.
  - reflexivity.
  - eexists. split; [left; reflexivity | reflexivity].
  - eexists. split; [left; reflexivity | reflexivity].
Defined.

(** The end-to-end scenario of the specification: the payload with the
    one departure of IC1234 gives one record and one new row, whose
    departure time is the one of 1698937200 seconds; the identical call
    made again inserts nothing. *)
Example end_to_end_scenario :
  let w0 := quiet_world (liveboard_of [ic1234]) [] in
  let req := Request "GET" [] (Raise (Exn ValueError "")) in
  let w1 := snd (get_irail_data req w0) in
  let w2 := snd (get_irail_data req w1) in
  status_code (fst (get_irail_data req w0)) = 200
  /\ LiveboardData w1 = [ic1234_row]
  /\ status_code (fst (get_irail_data req w1)) = 200
  /\ LiveboardData w2 = [ic1234_row].
Proof. cbv zeta. refine (conj _ (conj _ (conj _ _))); reflexivity. Qed.

(** C1, at the input where the code departs from it.  A record without
    [time] gets the departure time NULL; the existence check compares
    [departure_time = NULL], which no row satisfies, so the record is
    inserted again by every call.  Two calls in sequence with the same
    untimed record both succeed and leave two rows with the same key. *)
Theorem untimed_record_is_inserted_twice :
  let df := frame_of_records [ic_untimed] in
  let w0 := quiet_world (liveboard_of [ic_untimed]) [] in
  let w1 := snd (insert_into_sql df w0) in
  let w2 := snd (insert_into_sql df w1) in
  fst (insert_into_sql df w0) = (true, INSERT_DONE)
  /\ fst (insert_into_sql df w1) = (true, INSERT_DONE)
  /\ LiveboardData w2 = [untimed_row; untimed_row]
  /\ rows_with_key (LiveboardData w2) (SqlText "Brussel-Zuid")
                   (SqlText "BE.NMBS.IC1234") SqlNull = 2%nat
  /\ LiveboardData (fetch_irail_data_timer (fetch_irail_data_timer w0))
     = [untimed_row; untimed_row].
Proof. cbv zeta. refine (conj _ (conj _ (conj _ (conj _ _)))); reflexivity. Qed.

End OneRowPerKey.

(* ===================================================================== *)
(** ** Properties: the normaliser *)
(* ===================================================================== *)

Section Normaliser.

Lemma mem_string_In (s : string) (l : list string) :
  mem_string s l = true <-> In s l.
Proof.
  unfold mem_string. rewrite existsb_exists. split.
  - intros (x & Hin & E). apply String.eqb_eq in E. now subst.
  - intros H. exists s. split; [exact H | apply String.eqb_refl].
Qed.


(** The columns of a frame are the keys of its records. *)
Lemma add_keys_In (record : dict) :
  forall (cols : list string) (k : string),
    In k (add_keys cols record) <-> In k cols \/ In k (map fst record).
Proof.
  unfold add_keys.
  induction (map fst record) as [|k0 ks IH]; intros cols k; cbn [fold_left].
  - cbn. tauto.
  - rewrite IH. destruct (mem_string k0 cols) eqn:M.
    + apply mem_string_In in M. cbn. intuition (subst; auto).
    + rewrite in_app_iff. cbn. tauto.
Qed.

Lemma union_keys_In (records : list dict) :
  forall (cols : list string) (k : string),
    In k (fold_left add_keys records cols)
    <-> In k cols \/ exists r, In r records /\ In k (map fst r).
Proof.
  induction records as [|r tl IH]; intros cols k; cbn [fold_left].
  - split; [tauto | intros [H | (r & [] & _)]; exact H].
  - rewrite IH, add_keys_In. split.
    + intros [[H | H] | (r0 & Hin & H)]; [now left | | ].
      * right. exists r. split; [now left | exact H].
      * right. exists r0. split; [now right | exact H].
    + intros [H | (r0 & [<- | Hin] & H)]; [tauto | tauto |].
      right. exists r0. split; assumption.
Qed.


Lemma map_result_objects (entries : list dict) :
  map_result simple_json_normalize (map JObj entries)
  = Ok (map normalise_json_ordered entries).
Proof.
  induction entries as [|e tl IH]; [reflexivity|].
  cbn [map map_result simple_json_normalize bind]. rewrite IH. reflexivity.
Qed.

Lemma json_normalize_objects (entries : list dict) :
  json_normalize (JArr (map JObj entries))
  = Ok (frame_of_records (map normalise_json_ordered entries)).
Proof.
  destruct entries as [|e tl]; [reflexivity|].
  unfold json_normalize. cbn [map].
  change (JObj e :: map JObj tl) with (map JObj (e :: tl)).
  rewrite map_result_objects. reflexivity.
Qed.



(** C5, as the specification has it, fails: with [departures] present but
    null there is no list at [departures.departure], and the normaliser
    raises; it also raises when [departure] is present but null. *)
Lemma null_departures_raise :
  let payload := JObj [("departures", JNull)] in
  departure_list payload = None
  /\ normalize_liveboard payload
     = Raise (Exn AttributeError "'NoneType' object has no attribute 'get'")
  /\ normalize_liveboard (JObj [("departures", JObj [("departure", JNull)])])
     = Raise (Exn NotImplementedError "")
  /\ ~ (forall payload,
           departure_list payload = None \/ departure_list payload = Some [] ->
           exists df, normalize_liveboard payload = Ok df /\ values df = []).
Proof.
  cbv zeta. refine (conj eq_refl (conj eq_refl (conj eq_refl _))).
  intros H.
  destruct (H (JObj [("departures", JNull)]) (or_introl eq_refl))
    as (df & E & _).
  discriminate E.
Qed.

(** C5, as the code has it.  For a payload that is an object: when the key
    [departures] is missing, or when [departures] is an object in which
    the key [departure] is missing or holds the empty list, the normaliser
    raises nothing and returns the frame without rows. *)
Theorem normalize_without_departures (top : dict) :
  dict_get "departures" top = None
  \/ (exists departures,
         dict_get "departures" top = Some (JObj departures)
         /\ (dict_get "departure" departures = None
             \/ dict_get "departure" departures = Some (JArr []))) ->
  normalize_liveboard (JObj top) = Ok (Frame [] [])
  /\ iterrows (Frame [] []) = []
  /\ df_empty (Frame [] []) = true.
Proof.
  intros H. refine (conj _ (conj eq_refl eq_refl)).
  unfold normalize_liveboard. cbn [py_get bind].
  destruct H as [-> | (departures & -> & H)]; [reflexivity|].
  cbn [py_get bind]. destruct H as [-> | ->]; reflexivity.
Qed.

Lemma normalize_without_departures_witness :
  normalize_liveboard (JObj [("version", JStr "1.3")]) = Ok (Frame [] [])
  /\ normalize_liveboard (JObj [("departures", JObj [("number", JNum 0)])])
     = Ok (Frame [] [])
  /\ normalize_liveboard (liveboard_of []) = Ok (Frame [] []).
Proof.
  refine (conj _ (conj _ _)).
  - apply (normalize_without_departures [("version", JStr "1.3")]).
    left. reflexivity.
  - apply (normalize_without_departures
             [("departures", JObj [("number", JNum 0)])]).
    right. eexists. split; [reflexivity | left; reflexivity].
  - apply (normalize_without_departures
             [("version", JStr "1.3");
              ("departures", JObj [("number", JNum 0);
                                   ("departure", JArr [])])]).
    right. eexists. split; [reflexivity | right; reflexivity].
Defined.



(** Nested objects of an entry become dotted labels. *)
Example nested_entry_is_flattened :
  normalize_liveboard
    (liveboard_of
       [[("station", JStr "Gent");
         ("stationinfo", JObj [("id", JStr "BE.NMBS.008892007");
                               ("name", JStr "Gent-Sint-Pieters")]);
         ("time", JStr "1698937200")]])
  = Ok (Frame ["station"; "time"; "stationinfo.id"; "stationinfo.name"]
              [[Val (JStr "Gent"); Val (JStr "1698937200");
                Val (JStr "BE.NMBS.008892007");
                Val (JStr "Gent-Sint-Pieters")]]).
Proof. reflexivity. Qed.

End Normaliser.

(* ===================================================================== *)
(** ** Properties: the HTTP trigger *)
(* ===================================================================== *)

Section HttpTrigger.

Lemma lower_ascii_idempotent (c : ascii) :
  lower_ascii (lower_ascii c) = lower_ascii c.
Proof.
  destruct c as [b0 b1 b2 b3 b4 b5 b6 b7].
  destruct b0, b1, b2, b3, b4, b5, b6, b7; reflexivity.
Qed.

Lemma str_lower_idempotent (s : string) :
  str_lower (str_lower s) = str_lower s.
Proof.
  induction s as [|c tl IH]; [reflexivity|].
  cbn [str_lower]. now rewrite lower_ascii_idempotent, IH.
Qed.

Lemma py_or_body_except (station : json) :
  py_or (body_except station) DEFAULT_STATION = py_or station DEFAULT_STATION.
Proof.
  unfold body_except, py_or.
  destruct (truthy station) eqn:T; cbn [negb]; [now rewrite T | reflexivity].
Qed.


Lemma sent_insert_into_sql (df : DataFrame) (w : world) :
  sent (snd (insert_into_sql df w)) = sent w.
Proof.
  unfold insert_into_sql. destruct (transaction df w); reflexivity.
Qed.

Lemma LiveboardData_add_sent (w : world) (r : http_get) :
  LiveboardData (add_sent w r) = LiveboardData w.
Proof. reflexivity. Qed.

(** A request to the handler makes one GET, for the station it resolved. *)
Lemma get_irail_data_sent (req : HttpRequest) (w : world) :
  sent (snd (get_irail_data req w))
  = (sent w ++ [liveboard_request (fst (fst (request_parameters req)))])%list.
Proof.
  unfold get_irail_data.
  destruct (request_parameters req) as [[station response_format] write_to_sql].
  cbn [fst]. unfold respond, get_liveboard.
  destruct (bind _ _) as [df|e]; [|reflexivity].
  destruct (df_empty df); [reflexivity|].
  destruct write_to_sql.
  - pose proof (sent_insert_into_sql df (add_sent w (liveboard_request station)))
      as Hs.
    destruct (insert_into_sql df _) as [[success msg] w']. cbn [snd] in Hs.
    destruct success; cbn [negb].
    + destruct (render _ _ _); exact Hs.
    + exact Hs.
  - cbn [negb]. destruct (render _ _ _); reflexivity.
Qed.

(** Without departures the answer is 404 and the table is not touched,
    whatever the write flag. *)
Lemma respond_no_departures (station : json) (response_format : string)
    (write_to_sql : bool) (w : world) (payload : json) (df : DataFrame) :
  irail w (liveboard_request station) = Ok payload ->
  normalize_liveboard payload = Ok df ->
  values df = [] ->
  respond station response_format write_to_sql w
  = (Ok (Response (Text "Aucun départ trouvé.") 404 None []),
     add_sent w (liveboard_request station)).
Proof.
  intros Hfetch Hnorm Hrows. unfold respond, get_liveboard.
  rewrite Hfetch. cbn [bind]. rewrite Hnorm.
  assert (E : df_empty df = true).
  { unfold df_empty. rewrite Hrows. destruct (columns df); reflexivity. }
  rewrite E. reflexivity.
Qed.

(** C7.  When the payload fetched for the request normalises to zero
    records, the handler answers 404 and writes nothing to the table,
    whatever the request says about writing. *)
Theorem no_departures_not_found (req : HttpRequest) (w : world)
    (payload : json) (df : DataFrame) :
  irail w (liveboard_request (fst (fst (request_parameters req)))) = Ok payload ->
  normalize_liveboard payload = Ok df ->
  values df = [] ->
  status_code (fst (get_irail_data req w)) = 404
  /\ body (fst (get_irail_data req w)) = Text "Aucun départ trouvé."
  /\ LiveboardData (snd (get_irail_data req w)) = LiveboardData w.
Proof.
  intros Hfetch Hnorm Hrows. unfold get_irail_data.
  destruct (request_parameters req) as [[station response_format] write_to_sql].
  cbn [fst] in Hfetch.
  rewrite (respond_no_departures _ _ _ _ _ _ Hfetch Hnorm Hrows).
  refine (conj eq_refl (conj eq_refl _)). reflexivity.
Qed.

Lemma no_departures_not_found_witness :
  let req := Request "GET" [("station", "Gent"); ("sql", "true")]
                     (Raise (Exn ValueError "")) in
  let w := quiet_world (liveboard_of []) [ic1234_row] in
  status_code (fst (get_irail_data req w)) = 404
  /\ body (fst (get_irail_data req w)) = Text "Aucun départ trouvé."
  /\ LiveboardData (snd (get_irail_data req w)) = [ic1234_row].
Proof.
  intros req w.
  apply (no_departures_not_found req w (liveboard_of []) (Frame [] []));
    reflexivity.
Defined.



(** C10, as the claim has it, fails: a POST whose body gives [sql] as a
    JSON boolean is answered with 200, and the rows are written even when
    the body says [false]. *)
Lemma boolean_sql_is_answered_200 :
  let w := quiet_world (liveboard_of [ic1234]) [] in
  let req (b : bool) := Request "POST" [] (Ok (JObj [("sql", JBool b)])) in
  status_code (fst (get_irail_data (req true) w)) = 200
  /\ status_code (fst (get_irail_data (req false) w)) = 200
  /\ LiveboardData (snd (get_irail_data (req false) w)) = [ic1234_row]
  /\ ~ (forall (r : HttpRequest) (w : world) (b : dict) (x : bool),
           method r = "POST" -> get_json r = Ok (JObj b) ->
           dict_get "sql" b = Some (JBool x) ->
           status_code (fst (get_irail_data r w)) = 500).
Proof.
  cbv zeta. refine (conj eq_refl (conj eq_refl (conj eq_refl _))).
  intros H.
  specialize (H (Request "POST" [] (Ok (JObj [("sql", JBool true)])))
                (quiet_world (liveboard_of [ic1234]) [])
                [("sql", JBool true)] true eq_refl eq_refl eq_refl).
  discriminate H.
Qed.

(** C10, as the code has it.  For a POST whose JSON body gives [sql] as a
    boolean, the exception of the lower-casing is caught by the inner
    [try]: the station and the format already read from the body are
    kept, the write flag stays the one of the query string (true when the
    query string has none), and the handler goes on with these. *)
Theorem boolean_sql_is_ignored (req : HttpRequest) (b : dict) (x : bool) :
  method req = "POST" ->
  get_json req = Ok (JObj b) ->
  dict_get "sql" b = Some (JBool x) ->
  request_parameters req
  = (py_or (match dict_get "station" b with
            | Some s => s
            | None => py_or (query_station req) DEFAULT_STATION
            end) DEFAULT_STATION,
     match dict_get "format" b with
     | Some (JStr f) => str_lower f
     | _ => query_format req
     end,
     query_sql req)
  /\ forall (w : world) (response : HttpResponse),
      fst (respond (fst (fst (request_parameters req)))
                   (snd (fst (request_parameters req)))
                   (query_sql req) w) = Ok response ->
      fst (get_irail_data req w) = response.
Proof.
  intros Hpost Hjson Hsql.
  assert (E : request_parameters req
              = (py_or (match dict_get "station" b with
                        | Some s => s
                        | None => py_or (query_station req) DEFAULT_STATION
                        end) DEFAULT_STATION,
                 match dict_get "format" b with
                 | Some (JStr f) => str_lower f
                 | _ => query_format req
                 end,
                 query_sql req)).
  { unfold request_parameters. rewrite Hpost. cbn [String.eqb Ascii.eqb Bool.eqb].
    unfold read_body. rewrite Hjson. cbn [py_get bind]. rewrite Hsql.
    set (station := match dict_get "station" b with
                    | Some s => s
                    | None => py_or (query_station req) DEFAULT_STATION
                    end).
    destruct (dict_get "format" b) as [[| | |f| |]|]; cbn [py_lower bind];
      rewrite ?py_or_body_except; try reflexivity.
    unfold query_format. rewrite str_lower_idempotent. reflexivity. }
  split; [exact E|].
  intros w response. unfold get_irail_data. rewrite E. cbn [fst snd].
  destruct (respond _ _ _ w) as [[r|e] w']; cbn [fst]; intros H;
    [now injection H | discriminate H].
Qed.

Lemma boolean_sql_is_ignored_witness :
  request_parameters
    (Request "POST" [("sql", "false")]
             (Ok (JObj [("station", JStr "Gent"); ("format", JStr "JSON");
                        ("sql", JBool true)])))
  = (JStr "Gent", "json", false).
Proof.
  apply (proj1 (boolean_sql_is_ignored
                  (Request "POST" [("sql", "false")]
                     (Ok (JObj [("station", JStr "Gent");
                                ("format", JStr "JSON");
                                ("sql", JBool true)])))
                  [("station", JStr "Gent"); ("format", JStr "JSON");
                   ("sql", JBool true)] true eq_refl eq_refl eq_refl)).
Defined.

End HttpTrigger.

(* ===================================================================== *)
(** ** More on the de-duplicating insert *)
(* ===================================================================== *)

Section InsertBatch.

Lemma sql_eq_true (a b : sqlval) : sql_eq a b = true -> a = b.
Proof.
  destruct a, b; cbn [sql_eq]; try discriminate; apply sqlval_eqb_eq.
Qed.

Lemma sql_eq_refl (a : sqlval) : a <> SqlNull -> sql_eq a a = true.
Proof.
  intros H. rewrite sql_eq_not_null by exact H. now apply sqlval_eqb_eq.
Qed.

Lemma fault_Ok (f : option string) (u : unit) : fault f = Ok u -> f = None.
Proof. destruct f; [discriminate | reflexivity]. Qed.

Lemma record_row_key (r : Series) (x : row) :
  record_row r = Ok x ->
  record_key r = Ok (station x, vehicle x, departure_time x).
Proof.
  unfold record_row, record_key. intros H.
  apply bind_Ok in H as (dt & -> & H). cbn [bind].
  apply bind_Ok in H as (s & -> & H). cbn [bind].
  apply bind_Ok in H as (v & -> & H). cbn [bind].
  apply bind_Ok in H as (p & _ & H).
  injection H as <-. reflexivity.
Qed.

(** One turn of the loop: the row of the record is looked up, and appended
    when the lookup finds nothing. *)
Lemma insert_rows_cons (w : world) (r : Series) (tl : list Series) (i : nat)
    (tbl tbl' : list row) :
  insert_rows w (r :: tl) i tbl = Ok tbl' ->
  exists x,
    record_row r = Ok x
    /\ execute_fault w i = None
    /\ insert_rows w tl (S i)
         (if key_exists tbl (station x) (vehicle x) (departure_time x)
          then tbl else (tbl ++ [x])%list) = Ok tbl'.
Proof.
  cbn [insert_rows]. intros H.
  apply bind_Ok in H as (dt & Hdt & H).
  apply bind_Ok in H as (tbl1 & Hstep & H).
  unfold cursor_execute in Hstep.
  apply bind_Ok in Hstep as (s & Hs & Hstep).
  apply bind_Ok in Hstep as (v & Hv & Hstep).
  apply bind_Ok in Hstep as (p & Hp & Hstep).
  apply bind_Ok in Hstep as (u & Hf & Hstep).
  injection Hstep as <-.
  exists (Row s v (bind_datetime dt) p). refine (conj _ (conj _ H)).
  - unfold record_row. rewrite Hdt, Hs, Hv, Hp. reflexivity.
  - exact (fault_Ok _ _ Hf).
Qed.

Lemma insert_rows_cons_Ok (w : world) (r : Series) (tl : list Series)
    (i : nat) (tbl : list row) (x : row) :
  record_row r = Ok x ->
  execute_fault w i = None ->
  insert_rows w (r :: tl) i tbl
  = insert_rows w tl (S i)
      (if key_exists tbl (station x) (vehicle x) (departure_time x)
       then tbl else (tbl ++ [x])%list).
Proof.
  unfold record_row. intros H Hf.
  apply bind_Ok in H as (dt & Hdt & H).
  apply bind_Ok in H as (s & Hs & H).
  apply bind_Ok in H as (v & Hv & H).
  apply bind_Ok in H as (p & Hp & H).
  injection H as <-.
  cbn [insert_rows]. rewrite Hdt. cbn [bind]. unfold cursor_execute.
  rewrite Hs, Hv, Hp, Hf. reflexivity.
Qed.

(** Committing the table does not change what the loop reads of the
    world. *)
Lemma insert_rows_set_LiveboardData (w : world) (t : list row)
    (rows : list Series) :
  forall (i : nat) (tbl : list row),
    insert_rows (set_LiveboardData w t) rows i tbl = insert_rows w rows i tbl.
Proof.
  induction rows as [|r tl IH]; intros i tbl; cbn [insert_rows];
    [reflexivity|].
  destruct (convert_time _) as [dt|e]; cbn [bind]; [|reflexivity].
  unfold cursor_execute. cbn [execute_fault set_LiveboardData].
  destruct (bind_param _) as [s|e]; cbn [bind]; [|reflexivity].
  destruct (bind_param _) as [v|e]; cbn [bind]; [|reflexivity].
  destruct (bind_param _) as [p|e]; cbn [bind]; [|reflexivity].
  destruct (fault _) as [u|e]; cbn [bind]; [|reflexivity].
  apply IH.
Qed.

(** What a successful call did. *)
Lemma insert_into_sql_true (df : DataFrame) (w : world) :
  fst (fst (insert_into_sql df w)) = true ->
  exists conn tbl,
    os_environ w "SqlConnectionString" = Ok conn
    /\ connect_fault w conn = None
    /\ insert_rows w (iterrows df) 0 (LiveboardData w) = Ok tbl
    /\ commit_fault w = None
    /\ insert_into_sql df w = ((true, INSERT_DONE), set_LiveboardData w tbl).
Proof.
  unfold insert_into_sql, transaction.
  destruct (os_environ w _) as [conn|e]; cbn [bind];
    [|intros H; discriminate H].
  destruct (fault (connect_fault w conn)) as [u|e] eqn:Hc; cbn [bind];
    [|intros H; discriminate H].
  destruct (insert_rows w _ _ _) as [tbl|e]; cbn [bind];
    [|intros H; discriminate H].
  destruct (fault (commit_fault w)) as [u'|e] eqn:Hm; cbn [bind];
    [|intros H; discriminate H].
  intros _. exists conn, tbl.
  refine (conj eq_refl (conj (fault_Ok _ _ Hc)
           (conj eq_refl (conj (fault_Ok _ _ Hm) eq_refl)))).
Qed.

(** The table after a call: the table before it, or the table the loop
    built. *)
Lemma insert_into_sql_table (df : DataFrame) (w : world) :
  LiveboardData (snd (insert_into_sql df w)) = LiveboardData w
  \/ insert_rows w (iterrows df) 0 (LiveboardData w)
     = Ok (LiveboardData (snd (insert_into_sql df w))).
Proof.
  unfold insert_into_sql, transaction.
  destruct (os_environ w _) as [conn|e]; cbn [bind]; [|now left].
  destruct (fault (connect_fault w conn)) as [u|e]; cbn [bind]; [|now left].
  destruct (insert_rows w _ _ _) as [tbl|e]; cbn [bind]; [|now left].
  destruct (fault (commit_fault w)) as [u'|e]; cbn [bind]; [|now left].
  right. reflexivity.
Qed.

(** The rows the loop appends are rows of records of the batch, at most one
    per record. *)
Lemma insert_rows_from_batch (w : world) (rows : list Series) :
  forall (i : nat) (tbl tbl' : list row),
    insert_rows w rows i tbl = Ok tbl' ->
    exists added,
      tbl' = (tbl ++ added)%list
      /\ (List.length added <= List.length rows)%nat
      /\ Forall (fun x => exists r, In r rows /\ record_row r = Ok x) added.
Proof.
  induction rows as [|r tl IH]; intros i tbl tbl' H.
  - injection H as <-. exists [].
    refine (conj _ (conj _ _)); [now rewrite app_nil_r | cbn; lia | constructor].
  - apply insert_rows_cons in H as (x & Hx & _ & H).
    apply IH in H as (added & -> & Hlen & Hall).
    assert (Hall' : Forall (fun x0 => exists r0, In r0 (r :: tl)
                                                 /\ record_row r0 = Ok x0) added).
    { eapply Forall_impl; [|exact Hall].
      intros a (r0 & Hin & Hr0). exists r0. split; [now right | exact Hr0]. }
    destruct (key_exists tbl _ _ _).
    + exists added. refine (conj eq_refl (conj _ Hall')). cbn. lia.
    + exists (x :: added). refine (conj _ (conj _ _)).
      * now rewrite <- app_assoc.
      * cbn. lia.
      * constructor; [|exact Hall']. exists r. split; [now left | exact Hx].
Qed.

(** After the loop, the key of every record of the batch is in the table,
    when the key has no NULL. *)
Lemma insert_rows_key_exists (w : world) (rows : list Series) :
  forall (i : nat) (tbl tbl' : list row) (r : Series) (s v d : sqlval),
    insert_rows w rows i tbl = Ok tbl' ->
    In r rows ->
    record_key r = Ok (s, v, d) ->
    key_not_null (s, v, d) ->
    key_exists tbl' s v d = true.
Proof.
  induction rows as [|r0 tl IH]; intros i tbl tbl' r s v d H Hin Hkey Hnn;
    [destruct Hin|].
  apply insert_rows_cons in H as (x & Hx & _ & H).
  destruct Hin as [<- | Hin]; [|exact (IH _ _ _ _ _ _ _ H Hin Hkey Hnn)].
  rewrite (record_row_key _ _ Hx) in Hkey. injection Hkey as Hs Hv Hd.
  destruct Hnn as (Ns & Nv & Nd). cbn [fst snd] in Ns, Nv, Nd.
  apply insert_rows_from_batch in H as (added & -> & _).
  rewrite key_exists_app. apply orb_true_iff. left.
  rewrite Hs, Hv, Hd.
  destruct (key_exists tbl s v d) eqn:E; [exact E|].
  rewrite key_exists_app, E. cbn [orb key_exists existsb].
  rewrite Hs, Hv, Hd, !sql_eq_refl by assumption. reflexivity.
Qed.

(** On a table that has the key of every record, the loop changes
    nothing. *)
Lemma insert_rows_all_present (w : world) (rows : list Series) :
  forall (i : nat) (tbl0 tbl0' tbl : list row),
    insert_rows w rows i tbl0 = Ok tbl0' ->
    (forall r s v d, In r rows -> record_key r = Ok (s, v, d) ->
                     key_exists tbl s v d = true) ->
    insert_rows w rows i tbl = Ok tbl.
Proof.
  induction rows as [|r tl IH]; intros i tbl0 tbl0' tbl H Hall;
    [reflexivity|].
  apply insert_rows_cons in H as (x & Hx & Hf & H).
  rewrite (insert_rows_cons_Ok _ _ _ _ _ _ Hx Hf).
  rewrite (Hall r _ _ _ (or_introl eq_refl) (record_row_key _ _ Hx)).
  eapply IH; [exact H|].
  intros r1 s v d Hin. apply Hall. now right.
Qed.

(** X1.  The rows that a call adds are rows of records of the batch, at most
    one per record: nothing else is written. *)
Theorem insert_writes_only_batch_rows (df : DataFrame) (w : world) :
  exists added : list row,
    LiveboardData (snd (insert_into_sql df w))
    = (LiveboardData w ++ added)%list
    /\ (List.length added <= List.length (values df))%nat
    /\ Forall (fun x => exists r, In r (iterrows df) /\ record_row r = Ok x)
              added.
Proof.
  destruct (insert_into_sql_table df w) as [-> | H].
  - exists []. refine (conj _ (conj _ _));
      [now rewrite app_nil_r | cbn; lia | constructor].
  - apply insert_rows_from_batch in H as (added & -> & Hlen & Hall).
    exists added. refine (conj eq_refl (conj _ Hall)).
    unfold iterrows in Hlen. now rewrite length_map in Hlen.
Qed.

(** X2.  After a successful call every record of the batch whose key has no
    NULL is in the table: some row has its station, vehicle and departure
    time. *)
Theorem inserted_records_are_stored (df : DataFrame) (w : world)
    (r : Series) (s v d : sqlval) :
  fst (fst (insert_into_sql df w)) = true ->
  In r (iterrows df) ->
  record_key r = Ok (s, v, d) ->
  key_not_null (s, v, d) ->
  exists x,
    In x (LiveboardData (snd (insert_into_sql df w)))
    /\ station x = s /\ vehicle x = v /\ departure_time x = d.
Proof.
  intros Hok Hin Hkey Hnn.
  apply insert_into_sql_true in Hok as (conn & tbl & _ & _ & Hrows & _ & ->).
  cbn [snd LiveboardData set_LiveboardData].
  pose proof (insert_rows_key_exists _ _ _ _ _ _ _ _ _ Hrows Hin Hkey Hnn) as E.
  apply existsb_exists in E as (x & Hx & E).
  apply andb_true_iff in E as (E & Ed). apply andb_true_iff in E as (Es & Ev).
  exists x. refine (conj Hx (conj _ (conj _ _))); now apply sql_eq_true.
Qed.

Lemma inserted_records_are_stored_witness :
  exists x,
    In x (LiveboardData
            (snd (insert_into_sql (frame_of_records [ic1234; ic5678])
                                  (quiet_world JNull [ic1234_row]))))
    /\ station x = SqlText "Brussel-Zuid"
    /\ vehicle x = SqlText "BE.NMBS.IC5678"
    /\ departure_time x = SqlDatetime (Datetime 1698937200000000).
Proof.
  apply (inserted_records_are_stored
           (frame_of_records [ic1234; ic5678])
           (quiet_world JNull [ic1234_row])
           (nth 1 (iterrows (frame_of_records [ic1234; ic5678])) [])).
  - reflexivity.
  - right. left. reflexivity.
  - reflexivity.
  - refine (conj _ (conj _ _)); discriminate.
Defined.

(** X3.  A successful call is idempotent when no key of the batch has a
    NULL: the same call made again succeeds and leaves the world as the
    first call left it. *)
Theorem insert_into_sql_idempotent (df : DataFrame) (w : world) :
  fst (fst (insert_into_sql df w)) = true ->
  (forall r k, In r (iterrows df) -> record_key r = Ok k -> key_not_null k) ->
  insert_into_sql df (snd (insert_into_sql df w))
  = ((true, INSERT_DONE), snd (insert_into_sql df w)).
Proof.
  intros Hok Hnn.
  apply insert_into_sql_true in Hok as (conn & tbl & He & Hc & Hrows & Hm & ->).
  cbn [snd]. unfold insert_into_sql at 1. unfold transaction.
  change (os_environ (set_LiveboardData w tbl) "SqlConnectionString")
    with (os_environ w "SqlConnectionString").
  rewrite He. cbn [bind connect_fault commit_fault set_LiveboardData LiveboardData].
  rewrite Hc, Hm. cbn [fault bind].
  rewrite insert_rows_set_LiveboardData.
  rewrite (insert_rows_all_present _ _ _ _ _ tbl Hrows).
  - reflexivity.
  - intros r s v d Hin Hkey.
    eapply insert_rows_key_exists; eauto.
Qed.

Lemma insert_into_sql_idempotent_witness :
  let df := frame_of_records [ic1234; ic5678; ic1234_platform7] in
  let w1 := snd (insert_into_sql df (quiet_world JNull [])) in
  insert_into_sql df w1 = ((true, INSERT_DONE), w1).
Proof.
  intros df w1.
  apply (insert_into_sql_idempotent df (quiet_world JNull [])).
  - reflexivity.
  - intros r k Hin Hk.
    destruct Hin as [<- | [<- | [<- | []]]]; injection Hk as <-;
      refine (conj _ (conj _ _)); discriminate.
Defined.

(** X4.  The invariant of the table: for a key without NULL, a table with at
    most one row for the key still has at most one after a call, whatever
    the batch holds (the key several times, other keys, failing rows) and
    however the call ends. *)
Theorem insert_keeps_one_row_per_key (df : DataFrame) (w : world)
    (s v d : sqlval) :
  key_not_null (s, v, d) ->
  (rows_with_key (LiveboardData w) s v d <= 1)%nat ->
  (rows_with_key (LiveboardData (snd (insert_into_sql df w))) s v d <= 1)%nat.
Proof.
  intros (Ns & Nv & Nd) Hle. cbn [fst snd] in Ns, Nv, Nd.
  destruct (insert_into_sql_table df w) as [-> | H]; [exact Hle|].
  destruct (insert_rows_rows_with_key s v d Ns Nv Nd _ _ _ _ _ H Hle)
    as (Hm & _).
  lia.
Qed.

Lemma insert_keeps_one_row_per_key_witness :
  (rows_with_key
     (LiveboardData
        (snd (insert_into_sql
                (frame_of_records [ic1234; ic5678; ic1234_platform7])
                (quiet_world JNull []))))
     (SqlText "Brussel-Zuid") (SqlText "BE.NMBS.IC1234")
     (SqlDatetime (Datetime 1698937200000000)) <= 1)%nat.
Proof.
  apply insert_keeps_one_row_per_key.
  - refine (conj _ (conj _ _)); discriminate.
  - cbn. lia.
Defined.

End InsertBatch.

(* ===================================================================== *)
(** ** More on the normaliser and the departure time *)
(* ===================================================================== *)

Section Frames.

Lemma add_keys_NoDup (record : dict) :
  forall cols : list string, NoDup cols -> NoDup (add_keys cols record).
Proof.
  unfold add_keys.
  induction (map fst record) as [|k ks IH]; intros cols Hnd; cbn [fold_left];
    [exact Hnd|].
  apply IH. destruct (mem_string k cols) eqn:M; [exact Hnd|].
  apply NoDup_app; [exact Hnd | repeat constructor; intros [] |].
  intros x Hx [<- | []]. apply mem_string_In in Hx.
  rewrite Hx in M. discriminate M.
Qed.

Lemma union_keys_NoDup (records : list dict) :
  forall cols : list string,
    NoDup cols -> NoDup (fold_left add_keys records cols).
Proof.
  induction records as [|r tl IH]; intros cols Hnd; cbn [fold_left];
    [exact Hnd|].
  apply IH, add_keys_NoDup, Hnd.
Qed.

Lemma map_fst_combine {A : Type} (f : string -> A) (l : list string) :
  map fst (combine l (map f l)) = l.
Proof.
  induction l as [|k tl IH]; [reflexivity|].
  cbn [map combine fst]. now rewrite IH.
Qed.

Lemma frame_of_records_rectangular (records : list dict) :
  rectangular (frame_of_records records)
  /\ Forall (fun r => map fst r = columns (frame_of_records records))
            (iterrows (frame_of_records records)).
Proof.
  unfold rectangular, iterrows, frame_of_records. cbn [columns values].
  refine (conj (conj _ _) _).
  - apply union_keys_NoDup. constructor.
  - apply Forall_forall. intros cells Hin.
    apply in_map_iff in Hin as (r & <- & _). apply length_map.
  - apply Forall_forall. intros row Hin.
    apply in_map_iff in Hin as (cells & <- & Hin).
    apply in_map_iff in Hin as (r & <- & _). apply map_fst_combine.
Qed.

(** What [json_normalize] returns is the frame of some records. *)
Lemma json_normalize_frame (data : json) (df : DataFrame) :
  json_normalize data = Ok df -> exists records, df = frame_of_records records.
Proof.
  destruct data as [| | | |items|d]; cbn [json_normalize]; try discriminate.
  - destruct items as [|x tl].
    + intros H. injection H as <-. exists []. reflexivity.
    + intros H. apply bind_Ok in H as (records & _ & H).
      injection H as <-. exists records. reflexivity.
  - intros H. injection H as <-. eexists. reflexivity.
Qed.

Lemma union_keys_nil (records : list dict) :
  union_keys records = [] <-> Forall (fun r => r = []) records.
Proof.
  split.
  - intros E. apply Forall_forall. intros r Hin.
    destruct r as [|[k v] tl]; [reflexivity|]. exfalso.
    assert (H : In k (union_keys records)).
    { apply union_keys_In. right. exists ((k, v) :: tl).
      split; [exact Hin | now left]. }
    rewrite E in H. exact H.
  - intros Hall. destruct (union_keys records) as [|k ks] eqn:E;
      [reflexivity|]. exfalso.
    assert (H : In k (union_keys records)) by (rewrite E; now left).
    apply union_keys_In in H as [[] | (r & Hin & Hk)].
    rewrite Forall_forall in Hall. rewrite (Hall r Hin) in Hk. exact Hk.
Qed.

(** X5.  The frame of the normaliser is rectangular: its labels are distinct,
    every row has one cell per label, and [iterrows] pairs each row with
    exactly the labels of the frame, whatever entries the payload holds. *)
Theorem normalize_liveboard_rectangular (payload : json) (df : DataFrame) :
  normalize_liveboard payload = Ok df ->
  rectangular df /\ Forall (fun r => map fst r = columns df) (iterrows df).
Proof.
  unfold normalize_liveboard. intros H.
  apply bind_Ok in H as (departures0 & _ & H).
  apply bind_Ok in H as (departures & _ & H).
  apply json_normalize_frame in H as (records & ->).
  apply frame_of_records_rectangular.
Qed.

Lemma normalize_liveboard_rectangular_witness :
  exists df,
    normalize_liveboard (liveboard_of [ic1234; ic_untimed]) = Ok df
    /\ rectangular df
    /\ Forall (fun r => map fst r = columns df) (iterrows df).
Proof.
  eexists. split; [reflexivity|].
  apply (normalize_liveboard_rectangular (liveboard_of [ic1234; ic_untimed])).
  reflexivity.
Defined.

(** X6.  [df.empty] of a normalised list of objects: the frame counts as
    empty exactly when no entry has a field, so a list of N entries without
    fields gives N rows and is still treated as "no departure". *)
Theorem normalized_frame_empty (top departures : dict) (entries : list dict)
    (df : DataFrame) :
  dict_get "departures" top = Some (JObj departures) ->
  dict_get "departure" departures = Some (JArr (map JObj entries)) ->
  normalize_liveboard (JObj top) = Ok df ->
  List.length (values df) = List.length entries
  /\ (df_empty df = true
      <-> Forall (fun e => normalise_json_ordered e = []) entries).
Proof.
  intros Hd He. unfold normalize_liveboard. cbn [py_get bind].
  rewrite Hd. cbn [py_get bind]. rewrite He, json_normalize_objects.
  intros H. injection H as <-.
  split; [cbn [frame_of_records values]; now rewrite !length_map|].
  rewrite <- (Forall_map normalise_json_ordered (fun r => r = [])).
  rewrite <- union_keys_nil.
  unfold df_empty, frame_of_records. cbn [columns values].
  destruct (union_keys (map normalise_json_ordered entries)) as [|k ks] eqn:E.
  - split; reflexivity.
  - destruct entries as [|e tl]; [discriminate E|]. cbn [map].
    split; intros H; discriminate H.
Qed.

Lemma normalized_frame_empty_witness :
  exists df,
    normalize_liveboard (liveboard_of [[]; [("stationinfo", JObj [])]]) = Ok df
    /\ List.length (values df) = 2%nat
    /\ df_empty df = true.
Proof.
  eexists. split; [reflexivity|].
  destruct (normalized_frame_empty
              [("version", JStr "1.3");
               ("departures",
                JObj [("number", JNum 2);
                      ("departure",
                       JArr (map JObj [[]; [("stationinfo", JObj [])]]))])]
              [("number", JNum 2);
               ("departure", JArr (map JObj [[]; [("stationinfo", JObj [])]]))]
              [[]; [("stationinfo", JObj [])]] _ eq_refl eq_refl eq_refl)
    as (Hlen & Hempty).
  split; [exact Hlen|].
  apply Hempty. repeat constructor.
Defined.

(** X7.  The threshold makes the two units agree: between 10^7 and 10^10
    seconds (from April 1970 to the year 2286) an epoch given in
    milliseconds and the same instant given in seconds have the same
    departure time, hence the same key. *)
Theorem millis_agree_with_seconds (v_ms v_s : json) (e : Z) :
  10000000 < e <= 10000000000 ->
  py_int v_ms = Ok (1000 * e) ->
  py_int v_s = Ok e ->
  convert_time (Val v_ms) = convert_time (Val v_s).
Proof.
  intros [Hlo Hhi] Hms Hs. unfold convert_time.
  rewrite (py_int_not_null _ _ Hms), (py_int_not_null _ _ Hs). cbn [bind].
  rewrite Hms, Hs. cbn [bind].
  replace (10000000000 <? 1000 * e) with true
    by (symmetry; apply Z.ltb_lt; lia).
  replace (10000000000 <? e) with false
    by (symmetry; apply Z.ltb_ge; lia).
  unfold fromtimestamp.
  rewrite round_half_even_millis, round_half_even_seconds.
  replace (1000 * e * 1000) with (e * 1000000) by lia. reflexivity.
Qed.

Lemma millis_agree_with_seconds_witness :
  convert_time (Val (JNum 1698937200000))
  = convert_time (Val (JStr "1698937200")).
Proof.
  apply (millis_agree_with_seconds _ _ 1698937200); [lia | | ]; reflexivity.
Defined.

End Frames.

(* ===================================================================== *)
(** ** More on the triggers *)
(* ===================================================================== *)

Section Triggers.

Lemma insert_into_sql_appends (df : DataFrame) (w : world) :
  exists added,
    LiveboardData (snd (insert_into_sql df w)) = (LiveboardData w ++ added)%list.
Proof.
  destruct (insert_into_sql_table df w) as [-> | H].
  - exists []. now rewrite app_nil_r.
  - apply insert_rows_extends in H as (added & -> & _). now exists added.
Qed.

Lemma insert_into_sql_false (df : DataFrame) (w : world) :
  fst (fst (insert_into_sql df w)) = false -> snd (insert_into_sql df w) = w.
Proof.
  unfold insert_into_sql. destruct (transaction df w); cbn; intros H;
    [discriminate H | reflexivity].
Qed.

(** The parameters of a request that is not a POST, or whose body is not a
    JSON object, are those of the query string. *)
Lemma request_parameters_query (req : HttpRequest) :
  String.eqb (method req) "POST" = false
  \/ (forall b, get_json req <> Ok (JObj b)) ->
  request_parameters req
  = (py_or (query_station req) DEFAULT_STATION, query_format req, query_sql req).
Proof.
  unfold request_parameters. intros [-> | Hbody]; [reflexivity|].
  destruct (String.eqb (method req) "POST"); [|reflexivity].
  unfold read_body.
  destruct (get_json req) as [[| | | | |b]|e];
    try (cbn [py_get]; now rewrite py_or_body_except).
  now elim (Hbody b).
Qed.

(** X8.  The handler answers 200, 404 or 500 and nothing else. *)
Theorem status_code_is_200_404_or_500 (req : HttpRequest) (w : world) :
  status_code (fst (get_irail_data req w)) = 200
  \/ status_code (fst (get_irail_data req w)) = 404
  \/ status_code (fst (get_irail_data req w)) = 500.
Proof.
  unfold get_irail_data.
  destruct (request_parameters req) as [[st fmt] wr].
  unfold respond, get_liveboard.
  destruct (bind _ _) as [df|e]; [|now right; right].
  destruct (df_empty df); [now right; left|].
  destruct (if wr then _ else _) as [[success msg] w'].
  destruct success; cbn [negb]; [|now right; right].
  unfold render. destruct (String.eqb fmt "json"); [now left|].
  destruct st; (now left) || (now right; right).
Qed.

(** X9.  With the write flag off the handler never touches the table,
    whatever the upstream returns. *)
Theorem no_write_without_flag (req : HttpRequest) (w : world) :
  snd (request_parameters req) = false ->
  LiveboardData (snd (get_irail_data req w)) = LiveboardData w.
Proof.
  unfold get_irail_data.
  destruct (request_parameters req) as [[st fmt] wr]. cbn [snd].
  intros ->. unfold respond, get_liveboard.
  destruct (bind _ _) as [df|e]; [|reflexivity].
  destruct (df_empty df); [reflexivity|].
  cbn [negb]. destruct (render _ _ _); reflexivity.
Qed.

Lemma no_write_without_flag_witness :
  let req := Request "GET" [("station", "Gent"); ("sql", "False")]
                     (Raise (Exn ValueError "")) in
  let w := quiet_world (liveboard_of [ic1234]) [] in
  status_code (fst (get_irail_data req w)) = 200
  /\ LiveboardData (snd (get_irail_data req w)) = [].
Proof.
  intros req w. split; [reflexivity|].
  apply (no_write_without_flag req w). reflexivity.
Defined.

(** X10.  Neither trigger updates or deletes a row: after the handler and
    after the timer the table is the table before, followed by what was
    added. *)
Theorem triggers_only_append :
  (forall (req : HttpRequest) (w : world),
      exists added,
        LiveboardData (snd (get_irail_data req w))
        = (LiveboardData w ++ added)%list)
  /\ (forall w : world,
         exists added,
           LiveboardData (fetch_irail_data_timer w)
           = (LiveboardData w ++ added)%list).
Proof.
  assert (Hnone : forall w r, exists added,
               LiveboardData (add_sent w r) = (LiveboardData w ++ added)%list).
  { intros w r. exists []. cbn. now rewrite app_nil_r. }
  split.
  - intros req w. unfold get_irail_data.
    destruct (request_parameters req) as [[st fmt] wr].
    unfold respond, get_liveboard.
    destruct (bind _ _) as [df|e]; [|apply Hnone].
    destruct (df_empty df); [apply Hnone|].
    destruct wr.
    + pose proof (insert_into_sql_appends df (add_sent w (liveboard_request st)))
        as Happ.
      destruct (insert_into_sql df _) as [[success msg] w']. cbn [snd] in Happ.
      destruct success; cbn [negb]; [destruct (render _ _ _)|]; exact Happ.
    + cbn [negb]. destruct (render _ _ _); apply Hnone.
  - intros w. unfold fetch_irail_data_timer, get_liveboard.
    destruct (bind _ _) as [df|e]; [|apply Hnone].
    destruct (df_empty df); [apply Hnone|].
    exact (insert_into_sql_appends df
             (add_sent w (liveboard_request (JStr "Brussel-Zuid")))).
Qed.

(** X11.  The timer does to the world what the handler does for a request
    that is not a POST and names neither a station nor [sql]: the same GET
    and the same insert. *)
Theorem timer_is_default_request (req : HttpRequest) (w : world) :
  String.eqb (method req) "POST" = false ->
  assoc_get "station" (params req) = None ->
  assoc_get "sql" (params req) = None ->
  snd (get_irail_data req w) = fetch_irail_data_timer w.
Proof.
  intros Hm Hst Hsql. unfold get_irail_data.
  rewrite (request_parameters_query req (or_introl Hm)).
  unfold query_station, query_sql, params_get. rewrite Hst, Hsql.
  change (py_or JNull DEFAULT_STATION) with (JStr "Brussel-Zuid").
  change (String.eqb (str_lower "true") "true") with true.
  unfold respond, fetch_irail_data_timer, get_liveboard.
  destruct (bind _ _) as [df|e]; [|reflexivity].
  destruct (df_empty df); [reflexivity|].
  destruct (insert_into_sql df _) as [[success msg] w']. cbn [snd].
  destruct success; cbn [negb]; [|reflexivity].
  unfold render. destruct (String.eqb _ "json"); reflexivity.
Qed.

Lemma timer_is_default_request_witness :
  let req := Request "GET" [("format", "json")] (Raise (Exn ValueError "")) in
  let w := quiet_world (liveboard_of [ic1234; ic5678]) [ic1234_row] in
  snd (get_irail_data req w) = fetch_irail_data_timer w.
Proof.
  intros req w. apply (timer_is_default_request req w); reflexivity.
Defined.

(** X12.  When the fetch or the normalisation raises, the handler answers
    500 with "Server error : " and the message, after the one GET and
    without touching the table. *)
Theorem upstream_failure_is_500 (req : HttpRequest) (w : world) (e : exn) :
  (json_data <- irail w (liveboard_request (fst (fst (request_parameters req)))) ;;
   normalize_liveboard json_data) = Raise e ->
  get_irail_data req w
  = (Response (Text ("Server error : " ++ exn_str e)) 500 None [],
     add_sent w (liveboard_request (fst (fst (request_parameters req))))).
Proof.
  unfold get_irail_data.
  destruct (request_parameters req) as [[st fmt] wr]. cbn [fst].
  intros H. unfold respond, get_liveboard. rewrite H. reflexivity.
Qed.

Lemma upstream_failure_is_500_witness :
  let req := Request "GET" [] (Raise (Exn ValueError "")) in
  fst (get_irail_data req (offline_world [ic1234_row]))
  = Response (Text "Server error : 503 Server Error: Service Unavailable")
             500 None []
  /\ fst (get_irail_data req (quiet_world (JArr []) [ic1234_row]))
     = Response (Text "Server error : 'list' object has no attribute 'get'")
                500 None [].
Proof.
  intros req. split.
  - rewrite (upstream_failure_is_500 req (offline_world [ic1234_row])
               (Exn HTTPError "503 Server Error: Service Unavailable") eq_refl).
    reflexivity.
  - rewrite (upstream_failure_is_500 req (quiet_world (JArr []) [ic1234_row])
               (no_attribute (JArr []) "get") eq_refl).
    reflexivity.
Defined.

(** X13.  When the insert fails, the handler answers 500 with "Erreur SQL : "
    and the message of the failure, renders no frame, and leaves the table
    as it was. *)
Theorem storage_failure_is_500 (req : HttpRequest) (w : world)
    (payload : json) (df : DataFrame) :
  let request := liveboard_request (fst (fst (request_parameters req))) in
  irail w request = Ok payload ->
  normalize_liveboard payload = Ok df ->
  df_empty df = false ->
  snd (request_parameters req) = true ->
  fst (fst (insert_into_sql df (add_sent w request))) = false ->
  fst (get_irail_data req w)
  = Response (Text ("Erreur SQL : "
                      ++ snd (fst (insert_into_sql df (add_sent w request)))))
             500 None []
  /\ LiveboardData (snd (get_irail_data req w)) = LiveboardData w.
Proof.
  cbv zeta. unfold get_irail_data.
  destruct (request_parameters req) as [[st fmt] wr]. cbn [fst snd].
  intros Hfetch Hnorm Hne -> Hfail. unfold respond, get_liveboard.
  rewrite Hfetch. cbn [bind]. rewrite Hnorm, Hne.
  pose proof (insert_into_sql_false _ _ Hfail) as Hw.
  destruct (insert_into_sql df _) as [[success msg] w'].
  cbn [fst snd] in Hfail, Hw |- *. subst success w'. split; reflexivity.
Qed.

Lemma storage_failure_is_500_witness :
  let req := Request "GET" [] (Raise (Exn ValueError "")) in
  fst (get_irail_data req (unconfigured_world (liveboard_of [ic1234]) []))
  = Response (Text "Erreur SQL : 'SqlConnectionString'") 500 None []
  /\ fst (get_irail_data req (unreachable_world (liveboard_of [ic1234]) []))
     = Response (Text "Erreur SQL : Login timeout expired") 500 None [].
Proof.
  intros req. split.
  - apply (proj1 (storage_failure_is_500 req
                    (unconfigured_world (liveboard_of [ic1234]) [])
                    (liveboard_of [ic1234]) (frame_of_records [ic1234])
                    eq_refl eq_refl eq_refl eq_refl eq_refl)).
  - apply (proj1 (storage_failure_is_500 req
                    (unreachable_world (liveboard_of [ic1234]) [])
                    (liveboard_of [ic1234]) (frame_of_records [ic1234])
                    eq_refl eq_refl eq_refl eq_refl eq_refl)).
Defined.

(** X14.  A station that is not a string (a number in a POST body, say)
    is fetched and its rows are inserted; only then, for the CSV answer, the
    file name needs [station.replace] and the handler answers 500: the rows
    stay committed behind a server error. *)
Theorem non_string_station_fails_after_commit (req : HttpRequest) (w : world)
    (payload : json) (df : DataFrame) :
  let station := fst (fst (request_parameters req)) in
  let request := liveboard_request station in
  (forall s, station <> JStr s) ->
  snd (fst (request_parameters req)) <> "json" ->
  snd (request_parameters req) = true ->
  irail w request = Ok payload ->
  normalize_liveboard payload = Ok df ->
  df_empty df = false ->
  fst (fst (insert_into_sql df (add_sent w request))) = true ->
  fst (get_irail_data req w)
  = Response (Text ("Server error : '" ++ type_name station
                      ++ "' object has no attribute 'replace'")) 500 None []
  /\ snd (get_irail_data req w) = snd (insert_into_sql df (add_sent w request)).
Proof.
  cbv zeta. unfold get_irail_data.
  destruct (request_parameters req) as [[st fmt] wr]. cbn [fst snd].
  intros Hst Hfmt -> Hfetch Hnorm Hne Hok. unfold respond, get_liveboard.
  rewrite Hfetch. cbn [bind]. rewrite Hnorm, Hne.
  destruct (insert_into_sql df _) as [[success msg] w'].
  cbn [fst snd] in Hok |- *. subst success. cbn [negb]. unfold render.
  destruct (String.eqb_spec fmt "json") as [E|_]; [now elim Hfmt|].
  destruct st as [| | |s| |]; try (split; reflexivity).
  now elim (Hst s).
Qed.

Lemma non_string_station_fails_after_commit_witness :
  let req := Request "POST" [] (Ok (JObj [("station", JNum 8814001)])) in
  let w := quiet_world (liveboard_of [ic1234]) [] in
  fst (get_irail_data req w)
  = Response (Text "Server error : 'int' object has no attribute 'replace'")
             500 None []
  /\ LiveboardData (snd (get_irail_data req w)) = [ic1234_row].
Proof.
  intros req w.
  destruct (non_string_station_fails_after_commit req w
              (liveboard_of [ic1234]) (frame_of_records [ic1234]))
    as (Hresp & Hworld); try reflexivity.
  - intros s H. discriminate H.
  - intros H. discriminate H.
  - split; [exact Hresp | rewrite Hworld; reflexivity].
Defined.

(** X15.  Every invocation makes exactly one GET, to the liveboard URL with
    [format=json] and a station that is not empty, whatever happens
    afterwards; there is no retry. *)
Theorem one_request_per_invocation :
  (forall (req : HttpRequest) (w : world),
      exists station,
        truthy station = true
        /\ sent (snd (get_irail_data req w))
           = (sent w ++ [HttpGet "https://api.irail.be/liveboard/"
                           [("station", station); ("format", JStr "json")]])%list)
  /\ (forall w : world,
         sent (fetch_irail_data_timer w)
         = (sent w ++ [HttpGet "https://api.irail.be/liveboard/"
                         [("station", JStr "Brussel-Zuid");
                          ("format", JStr "json")]])%list).
Proof.
  split.
  - intros req w. exists (fst (fst (request_parameters req))). split.
    + unfold request_parameters.
      destruct (if String.eqb (method req) "POST" then _ else _)
        as [[station response_format] write_to_sql].
      cbn [fst]. unfold py_or.
      destruct (truthy station) eqn:T; [exact T | reflexivity].
    + apply get_irail_data_sent.
  - intros w. unfold fetch_irail_data_timer, get_liveboard.
    destruct (bind _ _) as [df|e]; [|reflexivity].
    destruct (df_empty df); [reflexivity|].
    apply sent_insert_into_sql.
Qed.

(** X16.  The body of a POST.  A body that is not valid JSON, or not an
    object, leaves the parameters of the query string in force.  A body that
    is an object with a non-empty string [station] and string [format] and
    [sql] overrides all three. *)
Theorem post_body_parameters (req : HttpRequest) :
  method req = "POST" ->
  ((forall b, get_json req <> Ok (JObj b)) ->
   request_parameters req
   = (py_or (query_station req) DEFAULT_STATION, query_format req,
      query_sql req))
  /\ (forall b s f q,
         get_json req = Ok (JObj b) ->
         dict_get "station" b = Some (JStr s) -> s <> "" ->
         dict_get "format" b = Some (JStr f) ->
         dict_get "sql" b = Some (JStr q) ->
         request_parameters req
         = (JStr s, str_lower f, String.eqb (str_lower q) "true")).
Proof.
  intros Hpost. split.
  - intros Hbody. apply request_parameters_query. now right.
  - intros b s f q Hjson Hs Hne Hf Hq.
    unfold request_parameters, read_body.
    rewrite Hpost, Hjson. cbn [String.eqb Ascii.eqb Bool.eqb py_get bind].
    rewrite Hs, Hf. cbn [py_lower bind]. rewrite Hq. cbn [py_lower bind].
    unfold py_or. cbn [truthy].
    destruct (String.eqb_spec s "") as [E|_]; [now elim Hne | reflexivity].
Qed.

Lemma post_body_parameters_witness :
  request_parameters
    (Request "POST" [("station", "Gent"); ("sql", "true")]
             (Raise (Exn ValueError "not JSON")))
  = (JStr "Gent", "csv", true)
  /\ request_parameters
       (Request "POST" [("station", "Gent"); ("sql", "true")]
                (Ok (JObj [("station", JStr "Leuven"); ("format", JStr "JSON");
                           ("sql", JStr "no")])))
     = (JStr "Leuven", "json", false).
Proof.
  split.
  - apply (proj1 (post_body_parameters
                    (Request "POST" [("station", "Gent"); ("sql", "true")]
                             (Raise (Exn ValueError "not JSON"))) eq_refl)).
    intros b H. discriminate H.
  - apply (proj2 (post_body_parameters
                    (Request "POST" [("station", "Gent"); ("sql", "true")]
                       (Ok (JObj [("station", JStr "Leuven");
                                  ("format", JStr "JSON");
                                  ("sql", JStr "no")]))) eq_refl)
             [("station", JStr "Leuven"); ("format", JStr "JSON");
              ("sql", JStr "no")] "Leuven" "JSON" "no");
      try reflexivity.
    intros H. discriminate H.
Defined.

End Triggers.

(* ===================================================================== *)
(** ** More on failing and NULL-keyed records, and on the answer *)
(* ===================================================================== *)

Section Records.

Lemma sql_eq_null_r (a : sqlval) : sql_eq a SqlNull = false.
Proof. destruct a; reflexivity. Qed.

(** The existence check finds nothing for a key with a NULL. *)
Lemma key_exists_null (tbl : list row) (s v d : sqlval) :
  s = SqlNull \/ v = SqlNull \/ d = SqlNull -> key_exists tbl s v d = false.
Proof.
  intros H. unfold key_exists.
  induction tbl as [|x tl IH]; [reflexivity|].
  cbn [existsb]. rewrite IH, orb_false_r.
  destruct H as [-> | [-> | ->]]; rewrite sql_eq_null_r;
    rewrite ?andb_false_r; reflexivity.
Qed.

(** The loop returns only if every record of the batch could be converted
    and bound. *)
Lemma insert_rows_all_convert (w : world) (rows : list Series) :
  forall (i : nat) (tbl tbl' : list row),
    insert_rows w rows i tbl = Ok tbl' ->
    Forall (fun r => exists x, record_row r = Ok x) rows.
Proof.
  induction rows as [|r tl IH]; intros i tbl tbl' H; [constructor|].
  apply insert_rows_cons in H as (x & Hx & _ & H).
  constructor; [now exists x | exact (IH _ _ _ H)].
Qed.

Lemma insert_rows_null_keys (w : world) (rows : list Series) :
  forall (i : nat) (tbl tbl' : list row),
    insert_rows w rows i tbl = Ok tbl' ->
    (forall r k, In r rows -> record_key r = Ok k ->
                 fst (fst k) = SqlNull \/ snd (fst k) = SqlNull
                 \/ snd k = SqlNull) ->
    List.length tbl' = (List.length tbl + List.length rows)%nat.
Proof.
  induction rows as [|r tl IH]; intros i tbl tbl' H Hnull.
  - injection H as <-. cbn. lia.
  - apply insert_rows_cons in H as (x & Hx & _ & H).
    pose proof (Hnull r _ (or_introl eq_refl) (record_row_key _ _ Hx)) as Hk.
    cbn [fst snd] in Hk. rewrite (key_exists_null _ _ _ _ Hk) in H.
    apply IH in H.
    + rewrite H, length_app. cbn. lia.
    + intros r0 k Hin. apply Hnull. now right.
Qed.

(** X17.  One record that cannot be converted or bound (a [time] that is
    not a number, say) makes the whole call fail, wherever it stands in the
    batch, and nothing of the batch is written. *)
Theorem bad_record_rejects_batch (df : DataFrame) (w : world) (r : Series)
    (e : exn) :
  In r (iterrows df) ->
  record_row r = Raise e ->
  fst (fst (insert_into_sql df w)) = false
  /\ snd (insert_into_sql df w) = w.
Proof.
  intros Hin Hbad.
  destruct (fst (fst (insert_into_sql df w))) eqn:E.
  - exfalso.
    apply insert_into_sql_true in E as (conn & tbl & _ & _ & Hrows & _).
    apply insert_rows_all_convert in Hrows. rewrite Forall_forall in Hrows.
    destruct (Hrows r Hin) as (x & Hx). rewrite Hx in Hbad. discriminate Hbad.
  - split; [reflexivity | exact (insert_into_sql_false _ _ E)].
Qed.

Lemma bad_record_rejects_batch_witness :
  let df := frame_of_records [ic1234; ic5678; ic_bad_time] in
  let w := quiet_world JNull [] in
  fst (fst (insert_into_sql df w)) = false /\ snd (insert_into_sql df w) = w.
Proof.
  intros df w.
  apply (bad_record_rejects_batch df w (nth 2 (iterrows df) [])
           (Exn ValueError "invalid literal for int() with base 10: 'soon'")).
  - right. right. left. reflexivity.
  - reflexivity.
Defined.

(** X18.  Records whose key has a NULL are never recognised: a successful
    call on a batch of such records appends one row per record, whatever the
    table already holds. *)
Theorem null_key_records_are_always_added (df : DataFrame) (w : world) :
  fst (fst (insert_into_sql df w)) = true ->
  (forall r k, In r (iterrows df) -> record_key r = Ok k ->
               fst (fst k) = SqlNull \/ snd (fst k) = SqlNull
               \/ snd k = SqlNull) ->
  List.length (LiveboardData (snd (insert_into_sql df w)))
  = (List.length (LiveboardData w) + List.length (values df))%nat.
Proof.
  intros Hok Hnull.
  apply insert_into_sql_true in Hok as (conn & tbl & _ & _ & Hrows & _ & ->).
  cbn [snd LiveboardData set_LiveboardData].
  rewrite (insert_rows_null_keys _ _ _ _ _ Hrows Hnull).
  unfold iterrows. now rewrite length_map.
Qed.

Lemma null_key_records_are_always_added_witness :
  List.length
    (LiveboardData
       (snd (insert_into_sql (frame_of_records [ic_untimed; ic_untimed])
                             (quiet_world JNull [untimed_row]))))
  = 3%nat.
Proof.
  apply (null_key_records_are_always_added
           (frame_of_records [ic_untimed; ic_untimed])
           (quiet_world JNull [untimed_row])).
  - reflexivity.
  - intros r k Hin Hk.
    destruct Hin as [<- | [<- | []]]; injection Hk as <-;
      right; right; reflexivity.
Defined.

(** X19.  The answer that carries data.  For a string station, a fetch and a
    normalisation that succeed with a frame that is not empty, and an insert
    that succeeds when it is asked for, the handler answers 200 with the
    normalised frame: as JSON records for the format "json", and for every
    other format as CSV in an attachment named after the station, blanks
    replaced by underscores.  The world is the one the insert left, or the
    one after the GET when no insert was asked for. *)
Theorem data_response (req : HttpRequest) (w : world) (payload : json)
    (df : DataFrame) (s : string) :
  let fmt := snd (fst (request_parameters req)) in
  let write := snd (request_parameters req) in
  let request := liveboard_request (JStr s) in
  fst (fst (request_parameters req)) = JStr s ->
  irail w request = Ok payload ->
  normalize_liveboard payload = Ok df ->
  df_empty df = false ->
  (write = true -> fst (fst (insert_into_sql df (add_sent w request))) = true) ->
  fst (get_irail_data req w)
  = (if String.eqb fmt "json"
     then Response (JsonRecords df) 200 (Some "application/json") []
     else Response (Csv df) 200 (Some "text/csv")
            [("Content-Disposition",
              "attachment; filename=liveboard_" ++ str_replace_space s ++ ".csv")])
  /\ snd (get_irail_data req w)
     = (if write then snd (insert_into_sql df (add_sent w request))
        else add_sent w request).
Proof.
  cbv zeta. unfold get_irail_data.
  destruct (request_parameters req) as [[st fmt] wr]. cbn [fst snd].
  intros -> Hfetch Hnorm Hne Hok. unfold respond, get_liveboard.
  rewrite Hfetch. cbn [bind]. rewrite Hnorm, Hne.
  destruct wr.
  - specialize (Hok eq_refl).
    destruct (insert_into_sql df _) as [[success msg] w'].
    cbn [fst snd] in Hok |- *. subst success. cbn [negb]. unfold render.
    destruct (String.eqb fmt "json"); split; reflexivity.
  - cbn [negb]. unfold render.
    destruct (String.eqb fmt "json"); split; reflexivity.
Qed.

Lemma data_response_witness :
  let req := Request "GET" [("station", "Gent Sint Pieters")]
                     (Raise (Exn ValueError "")) in
  let w := quiet_world (liveboard_of [ic1234]) [] in
  fst (get_irail_data req w)
  = Response (Csv (frame_of_records [ic1234])) 200 (Some "text/csv")
             [("Content-Disposition",
               "attachment; filename=liveboard_Gent_Sint_Pieters.csv")].
Proof.
  intros req w.
  apply (proj1 (data_response req w (liveboard_of [ic1234])
                  (frame_of_records [ic1234]) "Gent Sint Pieters"
                  eq_refl eq_refl eq_refl eq_refl (fun _ => eq_refl))).
Defined.

End Records.
